(** * Schedule-risk pipeline: configuration resolver, inference handler, training run

    A shallow embedding of [src/config.py], [src/inference_configured.py]
    and [src/train_configured.py], with the properties of the written
    specification proved (or refuted) against it.

    Naming.  The specification speaks of the mode [managed-platform], of
    [ConfigError], [UnsupportedRequestError], [DataNotFoundError]; the code
    spells the mode ["sagemaker"] and raises the Python built-ins
    [ValueError], [ValueError] and [FileNotFoundError].  Definitions below
    keep the names of the code. *)

From Stdlib Require Import ZArith Floats.SpecFloat Strings.Ascii Strings.String.
From Stdlib Require Import Structures.OrderedTypeEx.
From stdpp Require Import gmap strings list sorting.

Set Warnings "-register-all".
Open Scope string_scope.

(** ** Python values *)

Module Py.

(** Exceptions raised by the modelled code and by the library calls it
    makes.  [EnvironmentError] is Python 3's alias of [OSError]. *)
Inductive exn :=
| KeyError
| TypeError
| AttributeError
| ValueError
| JSONDecodeError
| OverflowError
| IndexError
| EnvironmentError
| FileNotFoundError
| FileExistsError
| IsADirectoryError
| OtherException (name : string).

(** [isinstance(e, cls)] restricted to the classes above. *)
Definition isinstance (e cls : exn) : bool :=
  match cls, e with
  | KeyError, KeyError | TypeError, TypeError
  | AttributeError, AttributeError | OverflowError, OverflowError
  | IndexError, IndexError => true
  | ValueError, (ValueError | JSONDecodeError) => true
  | JSONDecodeError, JSONDecodeError => true
  | EnvironmentError,
    (EnvironmentError | FileNotFoundError | FileExistsError | IsADirectoryError) => true
  | FileNotFoundError, FileNotFoundError => true
  | FileExistsError, FileExistsError => true
  | IsADirectoryError, IsADirectoryError => true
  | OtherException a, OtherException b => bool_decide (a = b)
  | _, _ => false
  end.

(** The outcome of a call: a value, or a raised exception. *)
Inductive result (A : Type) :=
| Ok (a : A)
| Raise (e : exn).
Arguments Ok {A} a.
Arguments Raise {A} e.

#[export] Instance result_ret : MRet result := fun A a => Ok a.

#[export] Instance result_fmap : FMap result := fun A B f r =>
  match r with
  | Ok a => Ok (f a)
  | Raise e => Raise e
  end.

#[export] Instance result_bind : MBind result := fun A B k r =>
  match r with
  | Ok a => k a
  | Raise e => Raise e
  end.

(** IEEE binary64, as Python's [float]. *)
Abbreviation float := spec_float.

Definition f_0_5 : float := S754_finite false 4503599627370496 (-53).
Definition f_1_0 : float := S754_finite false 4503599627370496 (-52).
Definition f_0_0 : float := S754_zero false.

(** [a >= b] on floats: false as soon as one side is NaN. *)
Definition float_ge (a b : float) : bool := SFleb b a.
Definition float_gt (a b : float) : bool := SFltb b a.
Definition float_eq (a b : float) : bool := SFeqb a b.

(** What [json.load] produces: [None], [bool], [int], [float], [str],
    [list] and [dict] with string keys. *)
Inductive value :=
| JNull
| JBool (b : bool)
| JInt (z : Z)
| JFloat (f : float)
| JStr (s : string)
| JArr (l : list value)
| JObj (d : gmap string value).

(** [v[k]] for a string key. *)
Definition getitem (v : value) (k : string) : result value :=
  match v with
  | JObj d => match d !! k with
              | Some x => Ok x
              | None => Raise KeyError
              end
  | _ => Raise TypeError
  end.

(** [v.get(k, dflt)]: only [dict] has the method. *)
Definition dict_get (v : value) (k : string) (dflt : value) : result value :=
  match v with
  | JObj d => Ok (default dflt (d !! k))
  | _ => Raise AttributeError
  end.

(** [v.get(k)], the default being [None]. *)
Definition dict_get_none (v : value) (k : string) : result value :=
  dict_get v k JNull.

(** [v[k] = x] for a string key. *)
Definition setitem (v : value) (k : string) (x : value) : result value :=
  match v with
  | JObj d => Ok (JObj (<[k := x]> d))
  | _ => Raise TypeError
  end.

(** [v == s] for a string literal [s]. *)
Definition eq_str (v : value) (s : string) : bool :=
  match v with
  | JStr t => bool_decide (t = s)
  | _ => false
  end.

(** Truth value of an optional string ([None] and [""] are false). *)
Definition truthy (o : option string) : bool :=
  match o with
  | Some s => negb (bool_decide (s = ""))
  | None => false
  end.

(** [numpy.ndarray] of floats, of any number of dimensions. *)
Inductive ndarray :=
| Scalar (f : float)
| Nd (items : list ndarray).

(** [pandas.DataFrame]: column name to the cells of the column. *)
Abbreviation DataFrame := (gmap string (list value)).

(** What the parse stage hands to the predict stage. *)
Inductive features :=
| Frame (df : DataFrame)
| Array (a : ndarray).

(** The two candidate classifiers with the hyperparameters of [main]. *)
Inductive estimator :=
| LogisticRegression (max_iter : Z)
| XGBClassifier (n_estimators : Z) (learning_rate : float) (max_depth : Z)
    (subsample colsample_bytree : float) (random_state n_jobs : Z)
    (eval_metric : string).

(** [ColumnTransformer([('cat', OneHotEncoder(handle_unknown='ignore'), cat),
    ('num', StandardScaler(), num)])] *)
Record ColumnTransformer := {
  cat : list string;
  num : list string
}.

(** [Pipeline([('pre', pre), ('clf', clf)])]; [learned] stands for what
    fitting stored in the object, [_decision_threshold] for the attribute
    the load stage attaches. *)
Record Pipeline := {
  pre : ColumnTransformer;
  clf : estimator;
  learned : option (list float);
  _decision_threshold : option float
}.

(** [model._decision_threshold = t] *)
Definition set_decision_threshold (model : Pipeline) (t : float) : Pipeline :=
  {| pre := pre model; clf := clf model; learned := learned model;
     _decision_threshold := Some t |}.

(** A path on disk holds a directory or a file with its bytes. *)
Inductive node :=
| Dir
| File (bytes : string).

#[export] Instance node_eq_dec : EqDecision node.
Proof. solve_decision. Defined.

(** Behaviour of the interpreter and of the libraries the code calls,
    which is not code of the repository. *)
Record Runtime := {
  (** [str.lower] *)
  str_lower : string -> string;
  (** [float(n)] for an [int]: [OverflowError] when too large *)
  float_of_int : Z -> result float;
  (** [float(s)] for a [str]: [ValueError] when not a number *)
  float_of_str : string -> result float;
  (** [str(v)] inside an f-string *)
  format_value : value -> string;
  (** [f"{x:.4f}"] *)
  format_4f : float -> string;
  (** [json.loads] on the text of a file or of a request *)
  json_loads : string -> result value;
  (** [json.dumps] *)
  json_dumps : value -> result string;
  (** [os.path.join(os.path.dirname(__file__), "config.json")] *)
  DEFAULT_CONFIG_PATH : string;
  (** [glob.glob(pattern)] against a file system *)
  glob_glob : gmap string node -> string -> list string;
  (** [joblib.dump] and [joblib.load], on the bytes of the file *)
  joblib_dumps : Pipeline -> string;
  joblib_loads : string -> result Pipeline;
  (** [pd.read_csv], on the bytes of the file *)
  read_csv_text : string -> result DataFrame;
  (** whether pandas gives a column the dtype [object] *)
  is_object_dtype : list value -> bool;
  (** [np.array(v, dtype=float)] *)
  np_array_float : value -> result ndarray;
  (** [train_test_split(X, y, test_size=0.2, random_state=42, stratify=y)] *)
  train_test_split :
    DataFrame -> list value ->
    result (DataFrame * DataFrame * list value * list value);
  (** [pipeline.fit(X, y)], giving the fitted pipeline *)
  fit : Pipeline -> DataFrame -> list value -> result Pipeline;
  (** [pipeline.predict(X)] *)
  predict : Pipeline -> DataFrame -> result (list value);
  (** [pipeline.predict_proba(X)] *)
  predict_proba : Pipeline -> features -> result ndarray;
  (** [f1_score(y_true, y_pred)] *)
  f1_score : list value -> list value -> result float
}.

(** The built-in [float(v)]. *)
Definition py_float (rt : Runtime) (v : value) : result float :=
  match v with
  | JFloat f => Ok f
  | JInt z => float_of_int rt z
  | JBool b => Ok (if b then f_1_0 else f_0_0)
  | JStr s => float_of_str rt s
  | JNull | JArr _ | JObj _ => Raise TypeError
  end.

(** The process environment, the file system and what was printed. *)
Record World := {
  environ : gmap string string;
  fs : gmap string node;
  stdout : list string
}.

(** [open(path, "r").read()] *)
Definition read_file (w : World) (path : string) : result string :=
  match fs w !! path with
  | Some (File s) => Ok s
  | Some Dir => Raise IsADirectoryError
  | None => Raise FileNotFoundError
  end.

(** [os.path.join(a, b)] on POSIX. *)
Fixpoint ends_with_sep (a : string) : bool :=
  match a with
  | EmptyString => false
  | String c EmptyString => bool_decide (c = "/"%char)
  | String _ r => ends_with_sep r
  end.

Definition starts_with_sep (b : string) : bool :=
  match b with
  | String c _ => bool_decide (c = "/"%char)
  | EmptyString => false
  end.

Definition path_join (a b : string) : string :=
  if starts_with_sep b then b
  else if bool_decide (a = "") || ends_with_sep a then a ++ b
  else a ++ "/" ++ b.

(** A path argument must be a [str]: [os.fspath] raises [TypeError] on the
    other values a document can hold.  (An [int] would be taken as a file
    descriptor by some calls; a document that puts a number where a path
    belongs is outside the model.) *)
Definition as_path (v : value) : result string :=
  match v with
  | JStr s => Ok s
  | _ => Raise TypeError
  end.

(** [os.path.isdir(path)] *)
Definition isdir (w : World) (path : string) : bool :=
  bool_decide (fs w !! path = Some Dir).

(** Python compares strings by code point; on UTF-8 bytes this is the
    byte-wise lexicographic order. *)
Definition str_le (a b : string) : Prop := String.leb a b = true.

#[export] Instance str_le_dec a b : Decision (str_le a b).
Proof. unfold str_le. apply _. Defined.

(** [sorted(l)] on a list of strings. *)
Definition sorted (l : list string) : list string := merge_sort str_le l.

(** Code that reads and writes the world: the final world is returned
    also when an exception ends the call. *)
Definition IO (A : Type) : Type := World -> result A * World.

#[export] Instance IO_ret : MRet IO := fun A a w => (Ok a, w).

#[export] Instance IO_bind : MBind IO := fun A B k m w =>
  match m w with
  | (Ok a, w') => k a w'
  | (Raise e, w') => (Raise e, w')
  end.

(** A call that only reads the world. *)
Definition reading {A} (f : World -> result A) : IO A := fun w => (f w, w).

(** [os.makedirs(path, exist_ok=True)]: the empty path names nothing.
    Only the directory itself is looked at and made; its parents are
    taken to be there. *)
Definition makedirs (path : string) : IO unit := fun w =>
  if bool_decide (path = "") then (Raise FileNotFoundError, w) else
  match fs w !! path with
  | Some Dir => (Ok (), w)
  | Some (File _) => (Raise FileExistsError, w)
  | None => (Ok (), {| environ := environ w; fs := <[path := Dir]> (fs w);
                       stdout := stdout w |})
  end.

(** Opening [path] for writing, writing [bytes], closing. *)
Definition write_file (path bytes : string) : IO unit := fun w =>
  match fs w !! path with
  | Some Dir => (Raise IsADirectoryError, w)
  | _ => (Ok (), {| environ := environ w; fs := <[path := File bytes]> (fs w);
                    stdout := stdout w |})
  end.

(** [print(line)] *)
Definition print (line : string) : IO unit := fun w =>
  (Ok (), {| environ := environ w; fs := fs w; stdout := stdout w ++ [line] |}).

End Py.
Export Py.

(** ** [src/config.py] *)

Module Config.

(** [config_path or os.environ.get("APP_CONFIG_PATH", DEFAULT_CONFIG_PATH)] *)
Definition config_file (rt : Runtime) (w : World) (config_path : option string)
  : string :=
  if truthy config_path then default "" config_path
  else default (DEFAULT_CONFIG_PATH rt) (environ w !! "APP_CONFIG_PATH").

(** [load_config(config_path)] *)
Definition load_config (rt : Runtime) (w : World) (config_path : option string)
  : result value :=
  let path := config_file rt w config_path in
  text ← read_file w path;
  cfg ← json_loads rt text;
  let env_mode := environ w !! "MODE" in
  cfg ← (if truthy env_mode
         then setitem cfg "mode" (JStr (str_lower rt (default "" env_mode)))
         else Ok cfg);
  mode ← dict_get_none cfg "mode";
  if negb (eq_str mode "local" || eq_str mode "sagemaker")
  then Raise ValueError
  else Ok cfg.

(** The document [load_config] goes on with after lines 27-29: its mode
    replaced when [MODE] holds a non-empty string. *)
Definition with_MODE (rt : Runtime) (w : World) (d : gmap string value)
  : gmap string value :=
  match environ w !! "MODE" with
  | Some v => if bool_decide (v = "") then d
              else <["mode" := JStr (str_lower rt v)]> d
  | None => d
  end.

(** The mode of a document is one of the two literals of line 30. *)
Definition mode_recognized (d : gmap string value) : Prop :=
  d !! "mode" = Some (JStr "local") \/ d !! "mode" = Some (JStr "sagemaker").

(** [os.environ.get(name)] where [name] is a value read from the document. *)
Definition environ_get (w : World) (name : value) : result (option string) :=
  match name with
  | JStr n => Ok (environ w !! n)
  | _ => Raise TypeError
  end.

(** [resolve_paths(cfg)] *)
Definition resolve_paths (w : World) (cfg : value) : result (value * value) :=
  mode ← getitem cfg "mode";
  if eq_str mode "local" then
    l1 ← getitem cfg "local";
    data_path ← getitem l1 "data_path";
    l2 ← getitem cfg "local";
    out_dir ← getitem l2 "out_dir";
    Ok (data_path, out_dir)
  else
    s1 ← getitem cfg "sagemaker";
    n1 ← getitem s1 "train_channel";
    data_path ← environ_get w n1;
    s2 ← getitem cfg "sagemaker";
    n2 ← getitem s2 "model_dir";
    out_dir ← environ_get w n2;
    if negb (truthy data_path) || negb (truthy out_dir)
    then Raise EnvironmentError
    else Ok (JStr (default "" data_path), JStr (default "" out_dir)).

(** [threshold(cfg)] *)
Definition threshold (rt : Runtime) (cfg : value) : result float :=
  inference ← dict_get cfg "inference" (JObj ∅);
  t ← dict_get inference "threshold" (JFloat f_0_5);
  py_float rt t.

End Config.
Export Config.

(** ** [src/inference_configured.py] *)

Module InferenceConfigured.

(** [joblib.load(path)] *)
Definition joblib_load (rt : Runtime) (w : World) (path : string) : result Pipeline :=
  bytes ← read_file w path;
  joblib_loads rt bytes.

(** [model_fn(model_dir)] *)
Definition model_fn (rt : Runtime) (w : World) (model_dir : string) : result Pipeline :=
  let model_path := path_join model_dir "model.joblib" in
  model ← joblib_load rt w model_path;
  match (cfg ← load_config rt w None; threshold rt cfg) with
  | Ok t => Ok (set_decision_threshold model t)
  | Raise _ => Ok (set_decision_threshold model f_0_5)
  end.

(** [pd.DataFrame([feats])] for a [dict]: one row, one column per key. *)
Definition single_row (feats : gmap string value) : DataFrame :=
  (fun v => [v]) <$> feats.

(** [input_fn(request_body, request_content_type)] *)
Definition input_fn (rt : Runtime) (request_body request_content_type : string)
  : result features :=
  if bool_decide (request_content_type = "application/json") then
    payload ← json_loads rt request_body;
    feats ← dict_get_none payload "features";
    match feats with
    | JObj d => Ok (Frame (single_row d))
    | JArr l => a ← np_array_float rt (JArr [JArr l]); Ok (Array a)
    | _ => Raise ValueError
    end
  else Raise ValueError.

(** [float(a[0, 1])]: the entry of row 0, column 1. *)
Definition item_0_1 (a : ndarray) : result float :=
  match a with
  | Nd rows =>
      match rows !! 0%nat with
      | Some (Nd cols) =>
          match cols !! 1%nat with
          | Some (Scalar f) => Ok f
          | Some (Nd _) => Raise TypeError
          | None => Raise IndexError
          end
      | _ => Raise IndexError
      end
  | Scalar _ => Raise IndexError
  end.

(** The [dict] that [predict_fn] returns. *)
Definition prediction_dict (pred : Z) (proba thr : float) : value :=
  JObj (<["prediction" := JInt pred]>
        (<["proba" := JFloat proba]>
         (<["threshold" := JFloat thr]> ∅))).

(** [predict_fn(input_data, model)] *)
Definition predict_fn (rt : Runtime) (input_data : features) (model : Pipeline)
  : result value :=
  a ← predict_proba rt model input_data;
  proba ← item_0_1 a;
  let thr := default f_0_5 (_decision_threshold model) in
  let pred := if float_ge proba thr then 1%Z else 0%Z in
  Ok (prediction_dict pred proba thr).

(** [output_fn(prediction, content_type)] *)
Definition output_fn (rt : Runtime) (prediction : value) (content_type : string)
  : result string :=
  json_dumps rt prediction.

End InferenceConfigured.
Export InferenceConfigured.

(** ** [src/train_configured.py] *)

Module TrainConfigured.

(** Lines 30-36 of [load_csv]: the file that is read. *)
Definition load_csv_path (rt : Runtime) (w : World) (path_or_dir : string)
  : result string :=
  if isdir w path_or_dir then
    let candidates := sorted (glob_glob rt (fs w) (path_join path_or_dir "*.csv")) in
    match candidates with
    | [] => Raise FileNotFoundError
    | c :: _ => Ok c
    end
  else Ok path_or_dir.

(** [df['is_late']] and the like. *)
Definition column (df : DataFrame) (name : string) : result (list value) :=
  match df !! name with
  | Some cells => Ok cells
  | None => Raise KeyError
  end.

(** [load_csv(path_or_dir)] *)
Definition load_csv (rt : Runtime) (w : World) (path_or_dir : string)
  : result (DataFrame * list value) :=
  path ← load_csv_path rt w path_or_dir;
  text ← read_file w path;
  df ← read_csv_text rt text;
  y ← column df "is_late";
  let X := delete "is_late" df in
  Ok (X, y).

(** [build_preprocessor(X)] *)
Definition build_preprocessor (rt : Runtime) (X : DataFrame) : ColumnTransformer :=
  {| cat := (map_to_list (filter (fun kv => is_object_dtype rt kv.2 = true) X)).*1;
     num := (map_to_list (filter (fun kv => is_object_dtype rt kv.2 = false) X)).*1 |}.

Definition f_0_08 : float := S754_finite false 5764607523034235 (-56).
Definition f_0_9 : float := S754_finite false 8106479329266893 (-53).

(** The command line: [--config]. *)
Record Args := {
  config : option string
}.

(** What [main] holds when training and scoring are over. *)
Record Scored := {
  cfg_of : value;
  out_dir_of : value;
  lr_of : Pipeline;
  f1_lr_of : float;
  xgb_of : Pipeline;
  f1_xgb_of : float
}.

(** Lines 55-75 of [main]: configuration, data, the two candidates and
    their scores.  Nothing here writes. *)
Definition main_fit_and_score (rt : Runtime) (w : World) (args : Args)
  : result Scored :=
  cfg ← load_config rt w (config args);
  '(data_path, out_dir) ← resolve_paths w cfg;
  data_path ← as_path data_path;
  '(X, y) ← load_csv rt w data_path;
  '(X_tr, X_te, y_tr, y_te) ← train_test_split rt X y;
  let pre := build_preprocessor rt X in
  lr ← fit rt {| pre := pre; clf := LogisticRegression 200;
                 learned := None; _decision_threshold := None |} X_tr y_tr;
  p_lr ← predict rt lr X_te;
  f1_lr ← f1_score rt y_te p_lr;
  xgb ← fit rt {| pre := pre;
                  clf := XGBClassifier 300 f_0_08 6 f_0_9 f_0_9 42 (-1) "logloss";
                  learned := None; _decision_threshold := None |} X_tr y_tr;
  p_xgb ← predict rt xgb X_te;
  f1_xgb ← f1_score rt y_te p_xgb;
  Ok {| cfg_of := cfg; out_dir_of := out_dir; lr_of := lr; f1_lr_of := f1_lr;
        xgb_of := xgb; f1_xgb_of := f1_xgb |}.

(** The text written to [metrics.txt]. *)
Definition metrics_text (rt : Runtime) (f1_lr f1_xgb : float) : string :=
  ("logreg_f1=" ++ format_4f rt f1_lr ++ "
") ++
  ("xgboost_f1=" ++ format_4f rt f1_xgb ++ "
") ++
  ("best=" ++ (if float_ge f1_xgb f1_lr then "xgboost" else "logreg") ++ "
").

(** Lines 77-86 of [main]: choosing and saving. *)
Definition main_pick_and_save (rt : Runtime) (s : Scored) : IO unit :=
  let best := if float_ge (f1_xgb_of s) (f1_lr_of s) then xgb_of s else lr_of s in
  out_dir ← reading (fun _ => as_path (out_dir_of s));
  _ ← makedirs out_dir;
  _ ← write_file (path_join out_dir "model.joblib") (joblib_dumps rt best);
  _ ← write_file (path_join out_dir "metrics.txt")
        (metrics_text rt (f1_lr_of s) (f1_xgb_of s));
  mode ← reading (fun _ => getitem (cfg_of s) "mode");
  print ("[" ++ format_value rt mode ++ "] Saved model to "
         ++ path_join out_dir "model.joblib").

(** [main(args)] *)
Definition main (rt : Runtime) (args : Args) : IO unit :=
  s ← reading (fun w => main_fit_and_score rt w args);
  main_pick_and_save rt s.

End TrainConfigured.
Export TrainConfigured.

(** ** [pm-risk-local-complete/src/inference.py]

    The handler without configuration: the threshold is the literal 0.5. *)

Module Inference.

(** [model_fn(model_dir)] *)
Definition model_fn (rt : Runtime) (w : World) (model_dir : string) : result Pipeline :=
  let model_path := path_join model_dir "model.joblib" in
  joblib_load rt w model_path.

(** [input_fn(request_body, request_content_type)] *)
Definition input_fn (rt : Runtime) (request_body request_content_type : string)
  : result features :=
  if bool_decide (request_content_type = "application/json") then
    payload ← json_loads rt request_body;
    feats ← dict_get_none payload "features";
    match feats with
    | JObj d => Ok (Frame (single_row d))
    | JArr l => a ← np_array_float rt (JArr [JArr l]); Ok (Array a)
    | _ => Raise ValueError
    end
  else Raise ValueError.

(** [predict_fn(input_data, model)] *)
Definition predict_fn (rt : Runtime) (input_data : features) (model : Pipeline)
  : result value :=
  a ← predict_proba rt model input_data;
  proba ← item_0_1 a;
  let pred := if float_ge proba f_0_5 then 1%Z else 0%Z in
  Ok (JObj (<["prediction" := JInt pred]> (<["proba" := JFloat proba]> ∅))).

(** [output_fn(prediction, content_type)] *)
Definition output_fn (rt : Runtime) (prediction : value) (content_type : string)
  : result string :=
  json_dumps rt prediction.

End Inference.

(** ** [pm-risk/src/train.py]

    The training script without configuration: [--data] and [--out]. *)

Module Train.

(** The command line: [--data] and [--out], both required. *)
Record Args := {
  data : string;
  out : string
}.

(** [load_data(path)] *)
Definition load_data (rt : Runtime) (w : World) (path : string)
  : result (DataFrame * list value) :=
  text ← read_file w path;
  df ← read_csv_text rt text;
  y ← column df "is_late";
  let X := delete "is_late" df in
  Ok (X, y).

(** [build_preprocessor(X)] *)
Definition build_preprocessor (rt : Runtime) (X : DataFrame) : ColumnTransformer :=
  let cat_cols :=
    (map_to_list (filter (fun kv => is_object_dtype rt kv.2 = true) X)).*1 in
  let num_cols :=
    (map_to_list (filter (fun kv => is_object_dtype rt kv.2 = false) X)).*1 in
  {| cat := cat_cols; num := num_cols |}.

(** Lines 27-42 of [main]: the two candidates and their scores. *)
Definition main_fit_and_score (rt : Runtime) (w : World) (args : Args)
  : result (Pipeline * float * Pipeline * float) :=
  '(X, y) ← load_data rt w (data args);
  '(X_train, X_test, y_train, y_test) ← train_test_split rt X y;
  let pre := build_preprocessor rt X in
  logreg ← fit rt {| pre := pre; clf := LogisticRegression 200;
                     learned := None; _decision_threshold := None |}
                  X_train y_train;
  p_lr ← predict rt logreg X_test;
  f1_lr ← f1_score rt y_test p_lr;
  xgb ← fit rt {| pre := pre;
                  clf := XGBClassifier 300 f_0_08 6 f_0_9 f_0_9 42 (-1) "logloss";
                  learned := None; _decision_threshold := None |}
               X_train y_train;
  p_xgb ← predict rt xgb X_test;
  f1_xgb ← f1_score rt y_test p_xgb;
  Ok (logreg, f1_lr, xgb, f1_xgb).

(** [main(args)] *)
Definition main (rt : Runtime) (args : Args) : IO unit :=
  '(logreg, f1_lr, xgb, f1_xgb) ← reading (fun w => main_fit_and_score rt w args);
  let best := if float_ge f1_xgb f1_lr then xgb else logreg in
  _ ← makedirs (out args);
  _ ← write_file (path_join (out args) "model.joblib") (joblib_dumps rt best);
  _ ← write_file (path_join (out args) "metrics.txt") (metrics_text rt f1_lr f1_xgb);
  print ("Saved best model to" ++ " " ++ path_join (out args) "model.joblib").

End Train.

(** ** Sample runs

    A runtime that knows a handful of inputs and a few worlds, on which
    the definitions above can be evaluated. *)

Module Sample.

Definition f_0_7 : float := S754_finite false 6305039478318694 (-53).
Definition f_0_6999 : float := S754_finite false 6304138758393220 (-53).
Definition f_0_3 : float := S754_finite false 5404319552844595 (-54).
Definition f_0_3001 : float := S754_finite false 5406120992695543 (-54).

(** Lower-casing of the ASCII letters, byte by byte. *)
Definition lower_ascii (c : ascii) : ascii :=
  let n := N_of_ascii c in
  if ((65 <=? n) && (n <=? 90))%N then ascii_of_N (n + 32) else c.

Fixpoint lower_str (s : string) : string :=
  match s with
  | EmptyString => EmptyString
  | String c r => String (lower_ascii c) (lower_str r)
  end.

Definition local_doc : gmap string value :=
  <["mode" := JStr "local"]>
  (<["local" := JObj (<["data_path" := JStr "data/projects.csv"]>
                      (<["out_dir" := JStr "model_artifacts"]> ∅))]>
  (<["sagemaker" := JObj (<["train_channel" := JStr "SM_CHANNEL_TRAIN"]>
                          (<["model_dir" := JStr "SM_MODEL_DIR"]> ∅))]>
  (<["inference" := JObj (<["threshold" := JFloat f_0_7]> ∅)]> ∅))).

Definition sagemaker_doc : gmap string value :=
  <["mode" := JStr "sagemaker"]> local_doc.

Definition null_threshold_doc : gmap string value :=
  <["inference" := JObj (<["threshold" := JNull]> ∅)]> local_doc.

Definition frame : DataFrame :=
  <["is_late" := [JInt 1; JInt 0]]>
  (<["team_size" := [JInt 10; JInt 4]]>
  (<["project_type" := [JStr "Upgrade"; JStr "Migration"]]> ∅)).

Definition fitted (p : Pipeline) : Pipeline :=
  {| pre := pre p; clf := clf p; learned := Some [];
     _decision_threshold := _decision_threshold p |}.

Definition is_xgb (p : Pipeline) : bool :=
  match clf p with
  | XGBClassifier _ _ _ _ _ _ _ _ => true
  | LogisticRegression _ => false
  end.

Definition runtime : Runtime := {|
  str_lower := lower_str;
  float_of_int := fun z => if (z =? 1)%Z then Ok f_1_0 else
                           if (z =? 0)%Z then Ok f_0_0 else Raise OverflowError;
  float_of_str := fun _ => Raise ValueError;
  format_value := fun v => match v with JStr s => s | _ => "?" end;
  format_4f := fun f => if SFeqb f f_1_0 then "1.0000" else "0.5000";
  json_loads := fun s =>
    if bool_decide (s = "local.json") then Ok (JObj local_doc) else
    if bool_decide (s = "sagemaker.json") then Ok (JObj sagemaker_doc) else
    if bool_decide (s = "[1, 2, 3]") then Ok (JArr [JInt 1; JInt 2; JInt 3]) else
    Raise JSONDecodeError;
  json_dumps := fun _ => Ok "{}";
  DEFAULT_CONFIG_PATH := "src/config.json";
  glob_glob := fun files pattern =>
    if bool_decide (pattern = "/opt/ml/input/data/train/*.csv")
    then ["/opt/ml/input/data/train/part-b.csv";
          "/opt/ml/input/data/train/part-a.csv"]
    else [];
  joblib_dumps := fun p => if is_xgb p then "xgboost pipeline" else "logreg pipeline";
  joblib_loads := fun s =>
    Ok {| pre := {| cat := []; num := [] |}; clf := LogisticRegression 200;
          learned := Some []; _decision_threshold := None |};
  read_csv_text := fun _ => Ok frame;
  is_object_dtype := fun cells =>
    match cells with JStr _ :: _ => true | _ => false end;
  np_array_float := fun _ => Ok (Nd [Nd [Scalar f_1_0]]);
  train_test_split := fun X y => Ok (X, X, y, y);
  fit := fun p _ _ => Ok (fitted p);
  predict := fun p _ => Ok (if is_xgb p then [JInt 1; JInt 0] else [JInt 1; JInt 1]);
  f1_score := fun y_true y_pred =>
    match y_pred with
    | [JInt 1; JInt 0] => Ok f_1_0
    | _ => Ok f_0_5
    end;
  predict_proba := fun _ x =>
    match x with
    | Array a => Ok a
    | Frame _ => Ok (Nd [Nd [Scalar f_0_3; Scalar f_0_7]])
    end
|}.

(** A loaded model whose attached threshold is 0.7. *)
Definition model_0_7 : Pipeline :=
  {| pre := {| cat := []; num := [] |}; clf := LogisticRegression 200;
     learned := Some []; _decision_threshold := Some f_0_7 |}.

(** A local checkout: the default configuration and the data file. *)
Definition local_world : World := {|
  environ := ∅;
  fs := <["src/config.json" := File "local.json"]>
        (<["data/projects.csv" := File "is_late,team_size,project_type"]>
        (<["model_dir/model.joblib" := File "logreg pipeline"]> ∅));
  stdout := []
|}.

(** The same checkout with [MODE] set to the empty string. *)
Definition empty_MODE_world : World := {|
  environ := <["MODE" := ""]> ∅;
  fs := fs local_world;
  stdout := []
|}.

(** A training container: the platform has set both variables and
    mounted the channel directory. *)
Definition platform_world : World := {|
  environ := <["SM_CHANNEL_TRAIN" := "/opt/ml/input/data/train"]>
             (<["SM_MODEL_DIR" := "/opt/ml/model"]>
             (<["MODE" := "SageMaker"]> ∅));
  fs := <["src/config.json" := File "local.json"]>
        (<["/opt/ml/input/data/train" := Dir]>
        (<["/opt/ml/input/data/train/part-a.csv" := File "a"]>
        (<["/opt/ml/input/data/train/part-b.csv" := File "b"]> ∅)));
  stdout := []
|}.

(** A container in which the channel variable is missing. *)
Definition broken_platform_world : World := {|
  environ := <["SM_MODEL_DIR" := "/opt/ml/model"]> (<["MODE" := "sagemaker"]> ∅);
  fs := fs platform_world;
  stdout := []
|}.

(** What training and scoring give in [local_world]: the boosted
    ensemble scores 1.0, the baseline 0.5. *)
Definition local_scored : Scored :=
  let pre := build_preprocessor runtime (delete "is_late" frame) in
  {| cfg_of := JObj local_doc;
     out_dir_of := JStr "model_artifacts";
     lr_of := {| pre := pre; clf := LogisticRegression 200;
                 learned := Some []; _decision_threshold := None |};
     f1_lr_of := f_0_5;
     xgb_of := {| pre := pre;
                  clf := XGBClassifier 300 f_0_08 6 f_0_9 f_0_9 42 (-1) "logloss";
                  learned := Some []; _decision_threshold := None |};
     f1_xgb_of := f_1_0 |}.

End Sample.

(** ** More sample runs *)

Module SampleRequests.

(** A request with two named features. *)
Definition request_features : gmap string value :=
  <["team_size" := JInt 12]> (<["project_type" := JStr "Upgrade"]> ∅).

Definition request_doc : gmap string value :=
  <["features" := JObj request_features]> ∅.

(** [Sample.runtime], knowing one more text. *)
Definition runtime : Runtime := {|
  str_lower := str_lower Sample.runtime;
  float_of_int := float_of_int Sample.runtime;
  float_of_str := float_of_str Sample.runtime;
  format_value := format_value Sample.runtime;
  format_4f := format_4f Sample.runtime;
  json_loads := fun s =>
    if bool_decide (s = "request.json") then Ok (JObj request_doc)
    else json_loads Sample.runtime s;
  json_dumps := json_dumps Sample.runtime;
  DEFAULT_CONFIG_PATH := DEFAULT_CONFIG_PATH Sample.runtime;
  glob_glob := glob_glob Sample.runtime;
  joblib_dumps := joblib_dumps Sample.runtime;
  joblib_loads := joblib_loads Sample.runtime;
  read_csv_text := read_csv_text Sample.runtime;
  is_object_dtype := is_object_dtype Sample.runtime;
  np_array_float := np_array_float Sample.runtime;
  train_test_split := train_test_split Sample.runtime;
  fit := fit Sample.runtime;
  predict := predict Sample.runtime;
  predict_proba := predict_proba Sample.runtime;
  f1_score := f1_score Sample.runtime
|}.

(** [Sample.runtime] with a [glob] that lists the channel directory in
    the other order. *)
Definition other_glob_runtime : Runtime := {|
  str_lower := str_lower Sample.runtime;
  float_of_int := float_of_int Sample.runtime;
  float_of_str := float_of_str Sample.runtime;
  format_value := format_value Sample.runtime;
  format_4f := format_4f Sample.runtime;
  json_loads := json_loads Sample.runtime;
  json_dumps := json_dumps Sample.runtime;
  DEFAULT_CONFIG_PATH := DEFAULT_CONFIG_PATH Sample.runtime;
  glob_glob := fun files pattern => reverse (glob_glob Sample.runtime files pattern);
  joblib_dumps := joblib_dumps Sample.runtime;
  joblib_loads := joblib_loads Sample.runtime;
  read_csv_text := read_csv_text Sample.runtime;
  is_object_dtype := is_object_dtype Sample.runtime;
  np_array_float := np_array_float Sample.runtime;
  train_test_split := train_test_split Sample.runtime;
  fit := fit Sample.runtime;
  predict := predict Sample.runtime;
  predict_proba := predict_proba Sample.runtime;
  f1_score := f1_score Sample.runtime
|}.

(** [Sample.runtime] with a model that refuses a row without features,
    as scikit-learn refuses a row of the wrong width. *)
Definition checking_runtime : Runtime := {|
  str_lower := str_lower Sample.runtime;
  float_of_int := float_of_int Sample.runtime;
  float_of_str := float_of_str Sample.runtime;
  format_value := format_value Sample.runtime;
  format_4f := format_4f Sample.runtime;
  json_loads := json_loads Sample.runtime;
  json_dumps := json_dumps Sample.runtime;
  DEFAULT_CONFIG_PATH := DEFAULT_CONFIG_PATH Sample.runtime;
  glob_glob := glob_glob Sample.runtime;
  joblib_dumps := joblib_dumps Sample.runtime;
  joblib_loads := joblib_loads Sample.runtime;
  read_csv_text := read_csv_text Sample.runtime;
  is_object_dtype := is_object_dtype Sample.runtime;
  np_array_float := np_array_float Sample.runtime;
  train_test_split := train_test_split Sample.runtime;
  fit := fit Sample.runtime;
  predict := predict Sample.runtime;
  predict_proba := fun model x =>
    match x with
    | Array (Nd [Nd []]) => Raise ValueError
    | _ => predict_proba Sample.runtime model x
    end;
  f1_score := f1_score Sample.runtime
|}.


(** The artifact that [Sample.runtime] deserializes. *)
Definition artifact : Pipeline :=
  {| pre := {| cat := []; num := [] |}; clf := LogisticRegression 200;
     learned := Some []; _decision_threshold := None |}.

(** A checkout whose output directory cannot take the report:
    [metrics.txt] is a directory there. *)
Definition blocked_report_world : World := {|
  environ := ∅;
  fs := <["model_artifacts/metrics.txt" := Dir]> (fs Sample.local_world);
  stdout := []
|}.

(** A checkout in which the output directory is a file. *)
Definition blocked_out_dir_world : World := {|
  environ := ∅;
  fs := <["model_artifacts" := File "not a directory"]> (fs Sample.local_world);
  stdout := []
|}.

End SampleRequests.

(** * Properties *)

(** ** The configuration resolver *)

Section ConfigResolver.

Context (rt : Runtime).

Lemma truthy_Some (s : string) : s <> "" -> truthy (Some s) = true.
Proof.
  intros Hs. unfold truthy. rewrite bool_decide_eq_false_2; auto.
Qed.

Lemma truthy_false (o : option string) :
  truthy o = false <-> o = None \/ o = Some "".
Proof.
  destruct o as [s|]; simpl.
  - rewrite negb_false_iff, bool_decide_eq_true. split.
    + intros ->. now right.
    + intros [H|H]; congruence.
  - split; auto.
Qed.

(** In any mode but [local] the two paths come from the environment. *)
Lemma resolve_paths_platform (w : World) (d sec : gmap string value)
    (mode : value) (a b : string) :
  d !! "mode" = Some mode ->
  eq_str mode "local" = false ->
  d !! "sagemaker" = Some (JObj sec) ->
  sec !! "train_channel" = Some (JStr a) ->
  sec !! "model_dir" = Some (JStr b) ->
  resolve_paths w (JObj d) =
    if negb (truthy (environ w !! a)) || negb (truthy (environ w !! b))
    then Raise EnvironmentError
    else Ok (JStr (default "" (environ w !! a)), JStr (default "" (environ w !! b))).
Proof.
  intros Hm Hl Hs Ha Hb. unfold resolve_paths. cbn.
  rewrite Hm. cbn. rewrite Hl, Hs. cbn. rewrite Ha. cbn. rewrite Hb. cbn.
  reflexivity.
Qed.

(** C2.  In managed-platform mode (the code's ["sagemaker"]), with a
    document whose platform section names two environment variables:
    [resolve_paths] raises [EnvironmentError] as soon as one of the two is
    unset or empty, and otherwise returns exactly their two values, the
    data path first and the output directory second. *)
Theorem resolve_paths_managed_platform (w : World) (d sec : gmap string value)
    (a b : string) :
  d !! "mode" = Some (JStr "sagemaker") ->
  d !! "sagemaker" = Some (JObj sec) ->
  sec !! "train_channel" = Some (JStr a) ->
  sec !! "model_dir" = Some (JStr b) ->
  ((environ w !! a = None \/ environ w !! a = Some "" \/
    environ w !! b = None \/ environ w !! b = Some "") ->
   resolve_paths w (JObj d) = Raise EnvironmentError) /\
  (forall x y : string,
     environ w !! a = Some x -> x <> "" ->
     environ w !! b = Some y -> y <> "" ->
     resolve_paths w (JObj d) = Ok (JStr x, JStr y)).
Proof.
  intros Hm Hs Ha Hb.
  pose proof (resolve_paths_platform w d sec _ a b Hm eq_refl Hs Ha Hb) as E.
  split.
  - intros H. rewrite E.
    assert (truthy (environ w !! a) = false \/ truthy (environ w !! b) = false)
      as [T|T].
    { rewrite !truthy_false. tauto. }
    + now rewrite T.
    + rewrite T. now rewrite orb_true_r.
  - intros x y Hx Hxe Hy Hye. rewrite E, Hx, Hy.
    rewrite !truthy_Some by assumption. reflexivity.
Qed.

(** C10.  In local mode [resolve_paths] returns the two entries of the
    document's [local] section, never raises [EnvironmentError], and gives
    the same result in any two worlds (so in any two environments). *)
Theorem resolve_paths_local (w1 w2 : World) (d : gmap string value) :
  d !! "mode" = Some (JStr "local") ->
  resolve_paths w1 (JObj d) = resolve_paths w2 (JObj d) /\
  resolve_paths w1 (JObj d) <> Raise EnvironmentError /\
  (forall (l : gmap string value) (data_path out_dir : value),
     d !! "local" = Some (JObj l) ->
     l !! "data_path" = Some data_path ->
     l !! "out_dir" = Some out_dir ->
     resolve_paths w1 (JObj d) = Ok (data_path, out_dir)).
Proof.
  intros Hm.
  assert (forall w, resolve_paths w (JObj d) =
            (l1 ← getitem (JObj d) "local";
             data_path ← getitem l1 "data_path";
             l2 ← getitem (JObj d) "local";
             out_dir ← getitem l2 "out_dir";
             Ok (data_path, out_dir))) as E.
  { intros w. unfold resolve_paths. cbn. rewrite Hm. reflexivity. }
  split; [|split].
  - now rewrite !E.
  - rewrite E. cbn.
    destruct (d !! "local") as [[| | | | | |l]|]; cbn; try discriminate.
    destruct (l !! "data_path"); cbn; try discriminate.
    destruct (l !! "out_dir"); cbn; discriminate.
  - intros l dp od Hl Hd Ho. rewrite E. cbn.
    rewrite Hl. cbn. rewrite Hd. cbn. rewrite Ho. reflexivity.
Qed.

Lemma mode_check (d : gmap string value) :
  (eq_str (default JNull (d !! "mode")) "local"
   || eq_str (default JNull (d !! "mode")) "sagemaker") = true
  <-> mode_recognized d.
Proof.
  unfold mode_recognized.
  destruct (d !! "mode") as [[| | | | s | |]|]; cbn;
    try (split; [discriminate | intros [H|H]; discriminate]).
  rewrite orb_true_iff, !bool_decide_eq_true. split.
  - intros [->| ->]; auto.
  - intros [H|H]; inversion H; auto.
Qed.

Lemma load_config_unfold (w : World) (config_path : option string)
    (text : string) (d : gmap string value) :
  read_file w (config_file rt w config_path) = Ok text ->
  json_loads rt text = Ok (JObj d) ->
  load_config rt w config_path =
    if eq_str (default JNull (with_MODE rt w d !! "mode")) "local"
       || eq_str (default JNull (with_MODE rt w d !! "mode")) "sagemaker"
    then Ok (JObj (with_MODE rt w d)) else Raise ValueError.
Proof.
  intros Hr Hj. unfold load_config, with_MODE. cbn. rewrite Hr. cbn.
  rewrite Hj. cbn.
  destruct (environ w !! "MODE") as [v|]; cbn.
  - destruct (bool_decide (v = "")); cbn;
      match goal with |- context [eq_str ?m "local" || eq_str ?m "sagemaker"] =>
        destruct (eq_str m "local" || eq_str m "sagemaker") end; reflexivity.
  - match goal with |- context [eq_str ?m "local" || eq_str ?m "sagemaker"] =>
      destruct (eq_str m "local" || eq_str m "sagemaker") end; reflexivity.
Qed.

(** C3, amended.  For a configuration file that parses to a mapping:
    [load_config] replaces the mode by the lower-cased [MODE] when that
    variable is set to a non-empty string (an empty [MODE] leaves the
    document as it is), then raises [ValueError] exactly when the
    resulting mode is missing or is none of the two literals, and returns
    the resulting document otherwise. *)
Theorem load_config_mode (w : World) (config_path : option string)
    (text : string) (d : gmap string value) :
  read_file w (config_file rt w config_path) = Ok text ->
  json_loads rt text = Ok (JObj d) ->
  (load_config rt w config_path = Raise ValueError
   <-> ~ mode_recognized (with_MODE rt w d)) /\
  (mode_recognized (with_MODE rt w d) ->
   load_config rt w config_path = Ok (JObj (with_MODE rt w d))).
Proof.
  intros Hr Hj. rewrite (load_config_unfold w config_path text d Hr Hj).
  pose proof (mode_check (with_MODE rt w d)) as M.
  destruct (eq_str _ "local" || eq_str _ "sagemaker").
  - split.
    + split; [discriminate | intros N; exfalso; apply N, M; reflexivity].
    + reflexivity.
  - split.
    + split; [intros _ N; apply M in N; discriminate | reflexivity].
    + intros N. apply M in N. discriminate.
Qed.

Lemma threshold_unfold (d i : gmap string value) :
  d !! "inference" = Some (JObj i) ->
  threshold rt (JObj d) = py_float rt (default (JFloat f_0_5) (i !! "threshold")).
Proof.
  intros Hi. unfold threshold. cbn. rewrite Hi. reflexivity.
Qed.

(** C4, amended.  [threshold] returns the configured threshold when the
    inference section is a mapping whose entry is a float (in general:
    whatever [float()] makes of the entry), and 0.5 when the inference
    section or its threshold entry is absent.  It raises otherwise:
    [TypeError] for an entry that is null, a list or a mapping,
    [AttributeError] when the inference section is not a mapping. *)
Theorem threshold_cases (d : gmap string value) :
  (d !! "inference" = None -> threshold rt (JObj d) = Ok f_0_5) /\
  (forall i : gmap string value,
     d !! "inference" = Some (JObj i) ->
     (i !! "threshold" = None -> threshold rt (JObj d) = Ok f_0_5) /\
     (forall f, i !! "threshold" = Some (JFloat f) -> threshold rt (JObj d) = Ok f) /\
     (forall t, i !! "threshold" = Some t -> threshold rt (JObj d) = py_float rt t) /\
     (forall t, i !! "threshold" = Some t ->
        match t with JNull | JArr _ | JObj _ => True | _ => False end ->
        threshold rt (JObj d) = Raise TypeError)) /\
  (forall v, d !! "inference" = Some v ->
     match v with JObj _ => False | _ => True end ->
     threshold rt (JObj d) = Raise AttributeError).
Proof.
  split; [|split].
  - intros H. unfold threshold. cbn. rewrite H. reflexivity.
  - intros i Hi. rewrite (threshold_unfold d i Hi). repeat split.
    + intros ->. reflexivity.
    + intros f ->. reflexivity.
    + intros t ->. reflexivity.
    + intros t -> Ht. destruct t; cbn in *; try contradiction; reflexivity.
  - intros v Hv Hn. unfold threshold. cbn. rewrite Hv.
    destruct v; cbn in *; try contradiction; reflexivity.
Qed.

End ConfigResolver.

Lemma resolve_paths_managed_platform_witness :
  resolve_paths Sample.platform_world (JObj Sample.sagemaker_doc)
    = Ok (JStr "/opt/ml/input/data/train", JStr "/opt/ml/model") /\
  resolve_paths Sample.broken_platform_world (JObj Sample.sagemaker_doc)
    = Raise EnvironmentError.
Proof.
  split.
  - refine (proj2 (resolve_paths_managed_platform Sample.platform_world
             Sample.sagemaker_doc
             (<["train_channel" := JStr "SM_CHANNEL_TRAIN"]>
              (<["model_dir" := JStr "SM_MODEL_DIR"]> ∅))
             "SM_CHANNEL_TRAIN" "SM_MODEL_DIR" _ _ _ _) _ _ _ _ _ _);
      try reflexivity; discriminate.
  - refine (proj1 (resolve_paths_managed_platform Sample.broken_platform_world
             Sample.sagemaker_doc
             (<["train_channel" := JStr "SM_CHANNEL_TRAIN"]>
              (<["model_dir" := JStr "SM_MODEL_DIR"]> ∅))
             "SM_CHANNEL_TRAIN" "SM_MODEL_DIR" _ _ _ _) _);
      try reflexivity.
    left. reflexivity.
Defined.

Lemma resolve_paths_local_witness :
  resolve_paths Sample.local_world (JObj Sample.local_doc)
    = resolve_paths Sample.platform_world (JObj Sample.local_doc) /\
  resolve_paths Sample.local_world (JObj Sample.local_doc)
    = Ok (JStr "data/projects.csv", JStr "model_artifacts").
Proof.
  pose proof (resolve_paths_local Sample.local_world Sample.platform_world
                Sample.local_doc eq_refl) as (H1 & _ & H3).
  split; [exact H1|].
  apply (H3 (<["data_path" := JStr "data/projects.csv"]>
             (<["out_dir" := JStr "model_artifacts"]> ∅))); reflexivity.
Defined.

(** C3 as stated fails: with [MODE] set to the empty string the mode of
    the document is not replaced, and a [local] document is returned
    where the claim has the replaced mode rejected. *)
Lemma load_config_MODE_set_counterexample :
  ~ (forall (rt : Runtime) (w : World) (config_path : option string)
            (text v : string) (d : gmap string value),
       read_file w (config_file rt w config_path) = Ok text ->
       json_loads rt text = Ok (JObj d) ->
       environ w !! "MODE" = Some v ->
       (load_config rt w config_path = Raise ValueError
        <-> ~ mode_recognized (<["mode" := JStr (str_lower rt v)]> d)) /\
       (mode_recognized (<["mode" := JStr (str_lower rt v)]> d) ->
        load_config rt w config_path
          = Ok (JObj (<["mode" := JStr (str_lower rt v)]> d)))).
Proof.
  intros H.
  destruct (H Sample.runtime Sample.empty_MODE_world None "local.json" ""
              Sample.local_doc eq_refl eq_refl eq_refl) as [[_ H2] _].
  assert (load_config Sample.runtime Sample.empty_MODE_world None
          = Ok (JObj Sample.local_doc)) as E by (vm_compute; reflexivity).
  rewrite E in H2. discriminate H2.
  intros [N|N]; rewrite lookup_insert_eq in N; discriminate N.
Qed.

Lemma load_config_mode_witness :
  load_config Sample.runtime Sample.platform_world None
    = Ok (JObj Sample.sagemaker_doc).
Proof.
  refine (proj2 (load_config_mode Sample.runtime Sample.platform_world None
                   "local.json" Sample.local_doc _ _) _).
  - reflexivity.
  - reflexivity.
  - right. reflexivity.
Defined.

(** C4 as stated fails: a document whose threshold entry is null makes
    [threshold] raise [TypeError]. *)
Lemma threshold_total_counterexample :
  ~ (forall (rt : Runtime) (cfg : value), exists t, threshold rt cfg = Ok t).
Proof.
  intros H.
  destruct (H Sample.runtime (JObj Sample.null_threshold_doc)) as [t Ht].
  vm_compute in Ht. discriminate Ht.
Qed.

Lemma threshold_cases_witness :
  threshold Sample.runtime (JObj Sample.local_doc) = Ok Sample.f_0_7 /\
  threshold Sample.runtime (JObj Sample.null_threshold_doc) = Raise TypeError /\
  threshold Sample.runtime (JObj ∅) = Ok f_0_5.
Proof.
  split; [|split].
  - pose proof (threshold_cases Sample.runtime Sample.local_doc) as (_ & H & _).
    apply (H (<["threshold" := JFloat Sample.f_0_7]> ∅)); reflexivity.
  - pose proof (threshold_cases Sample.runtime Sample.null_threshold_doc)
      as (_ & H & _).
    refine (proj2 (proj2 (proj2 (H (<["threshold" := JNull]> ∅) _))) JNull _ _);
      [reflexivity | reflexivity | exact I].
  - pose proof (threshold_cases Sample.runtime ∅) as (H & _).
    apply H. reflexivity.
Defined.

(** ** Floats *)

Lemma compare_cont_Eq_antisym (p q : positive) :
  Pos.compare_cont Eq q p = CompOpp (Pos.compare_cont Eq p q).
Proof. now rewrite Pos.compare_cont_antisym. Qed.

Lemma SFcompare_antisym (a b : float) :
  SFcompare b a = option_map CompOpp (SFcompare a b).
Proof.
  destruct a as [sa|sa| |sa ma ea], b as [sb|sb| |sb mb eb]; cbn;
    try reflexivity;
    try (destruct sa; reflexivity); try (destruct sb; reflexivity);
    try (destruct sa, sb; reflexivity).
  destruct sa, sb; cbn; try reflexivity;
    rewrite (Z.compare_antisym ea eb), (compare_cont_Eq_antisym ma mb);
    destruct (ea ?= eb)%Z; cbn; try reflexivity;
    destruct (Pos.compare_cont Eq ma mb); reflexivity.
Qed.

(** [a == b] gives [a >= b]. *)
Lemma float_eq_ge (a b : float) : float_eq a b = true -> float_ge a b = true.
Proof.
  unfold float_eq, float_ge, SFeqb, SFleb. rewrite (SFcompare_antisym a b).
  destruct (SFcompare a b) as [[]|]; cbn; congruence.
Qed.

(** [b > a] excludes [a >= b]. *)
Lemma float_gt_not_ge (a b : float) : float_gt b a = true -> float_ge a b = false.
Proof.
  unfold float_gt, float_ge, SFltb, SFleb. rewrite (SFcompare_antisym a b).
  destruct (SFcompare a b) as [[]|]; cbn; congruence.
Qed.

(** [a > b] gives [a >= b]. *)
Lemma float_gt_ge (a b : float) : float_gt a b = true -> float_ge a b = true.
Proof.
  unfold float_gt, float_ge, SFltb, SFleb.
  destruct (SFcompare b a) as [[]|]; cbn; congruence.
Qed.

(** ** The inference contract *)

Section InferenceContract.

Context (rt : Runtime).

(** C1, amended.  For a loaded model (one that carries a threshold
    [thr]): whenever the model's probability output is an array whose row
    0 has the entry [p] in column 1, [predict_fn] returns the mapping of
    [prediction], [proba] and [threshold] in which that [p] and the
    attached threshold are reported as they are and the label is 1
    exactly when [p >= thr], and 0 otherwise; so [p == thr] gives 1 and
    [p < thr] gives 0.  When the model's probability call raises,
    [predict_fn] raises the same exception and returns nothing.
    [predict_fn] is a function of its two arguments alone: it takes no
    world and returns none. *)
Theorem predict_fn_threshold (input_data : features) (model : Pipeline)
    (thr : float) :
  _decision_threshold model = Some thr ->
  (forall (row0 rows : list ndarray) (p : float),
     predict_proba rt model input_data = Ok (Nd (Nd row0 :: rows)) ->
     row0 !! 1%nat = Some (Scalar p) ->
     exists r : value,
       predict_fn rt input_data model = Ok r /\
       getitem r "proba" = Ok (JFloat p) /\
       getitem r "threshold" = Ok (JFloat thr) /\
       (getitem r "prediction" = Ok (JInt 1) <-> float_ge p thr = true) /\
       (getitem r "prediction" = Ok (JInt 0) <-> float_ge p thr = false) /\
       (float_eq p thr = true -> getitem r "prediction" = Ok (JInt 1)) /\
       (float_gt thr p = true -> getitem r "prediction" = Ok (JInt 0))) /\
  (forall e : exn,
     predict_proba rt model input_data = Raise e ->
     predict_fn rt input_data model = Raise e).
Proof.
  intros Ht. split.
  - intros row0 rows p Ha Hp.
    assert (predict_fn rt input_data model
            = Ok (prediction_dict (if float_ge p thr then 1%Z else 0%Z) p thr))
      as E.
    { unfold predict_fn. cbn. rewrite Ha. cbn. rewrite Hp. cbn. rewrite Ht.
      reflexivity. }
    eexists. split; [exact E|].
    assert (forall z, getitem (prediction_dict z p thr) "prediction" = Ok (JInt z))
      as G by (intros z; reflexivity).
    split; [reflexivity|]. split; [reflexivity|].
    rewrite G.
    split; [|split; [|split]].
    + destruct (float_ge p thr); split; congruence.
    + destruct (float_ge p thr); split; congruence.
    + intros H. now rewrite (float_eq_ge p thr H).
    + intros H. now rewrite (float_gt_not_ge p thr H).
  - intros e He. unfold predict_fn. cbn. now rewrite He.
Qed.

(** C5.  When the artifact deserializes, [model_fn] raises nothing and
    returns that artifact (its steps and fitted state as they were
    loaded) with the attribute [_decision_threshold] set: to the
    threshold of the resolver when [load_config] and [threshold] both
    return, and to 0.5 when [load_config] raises, whatever it raises
    (and also when [threshold] raises on the loaded document). *)
Theorem model_fn_threshold (w : World) (model_dir : string) (m : Pipeline) :
  joblib_load rt w (path_join model_dir "model.joblib") = Ok m ->
  exists (model : Pipeline) (t : float),
    model_fn rt w model_dir = Ok model /\
    _decision_threshold model = Some t /\
    pre model = pre m /\ clf model = clf m /\ learned model = learned m /\
    (forall cfg t', load_config rt w None = Ok cfg ->
                    threshold rt cfg = Ok t' -> t = t') /\
    (forall e, load_config rt w None = Raise e -> t = f_0_5) /\
    (forall cfg e, load_config rt w None = Ok cfg ->
                   threshold rt cfg = Raise e -> t = f_0_5).
Proof.
  intros Hm. unfold model_fn. cbn. rewrite Hm. cbn.
  destruct (load_config rt w None) as [cfg|e]; cbn.
  - destruct (threshold rt cfg) as [t|e] eqn:Et.
    + exists (set_decision_threshold m t), t.
      repeat split; intros; congruence.
    + exists (set_decision_threshold m f_0_5), f_0_5.
      repeat split; intros; congruence.
  - exists (set_decision_threshold m f_0_5), f_0_5.
    repeat split; intros; congruence.
Qed.

(** What [model_fn] returns is a loaded model in the sense of C1: it
    carries a threshold. *)
Lemma model_fn_attaches (w : World) (model_dir : string) (model : Pipeline) :
  model_fn rt w model_dir = Ok model ->
  exists t : float, _decision_threshold model = Some t.
Proof.
  unfold model_fn. cbn.
  destruct (joblib_load rt w (path_join model_dir "model.joblib")) as [m|e];
    cbn; [|discriminate].
  destruct (load_config rt w None) as [cfg|e]; cbn.
  - destruct (threshold rt cfg) as [t|e]; intros H; inversion H; cbn; eauto.
  - intros H; inversion H; cbn; eauto.
Qed.

(** [input_fn] on a content type other than [application/json]. *)
Lemma input_fn_other_content_type (request_body request_content_type : string) :
  request_content_type <> "application/json" ->
  input_fn rt request_body request_content_type = Raise ValueError.
Proof.
  intros H. unfold input_fn. now rewrite bool_decide_eq_false_2.
Qed.

(** [input_fn] on a body that is not JSON: [json.loads] raises, and what
    it raises is a [ValueError]. *)
Lemma input_fn_not_json (request_body : string) :
  json_loads rt request_body = Raise JSONDecodeError ->
  input_fn rt request_body "application/json" = Raise JSONDecodeError /\
  isinstance JSONDecodeError ValueError = true.
Proof.
  intros H. unfold input_fn. cbn. rewrite H. split; reflexivity.
Qed.

(** [input_fn] on a JSON object: by the kind of its [features] entry. *)
Lemma input_fn_object (request_body : string) (d : gmap string value) :
  json_loads rt request_body = Ok (JObj d) ->
  input_fn rt request_body "application/json" =
    match d !! "features" with
    | Some (JObj feats) => Ok (Frame (single_row feats))
    | Some (JArr l) => a ← np_array_float rt (JArr [JArr l]); Ok (Array a)
    | _ => Raise ValueError
    end.
Proof.
  intros H. unfold input_fn. cbn. rewrite H. cbn.
  destruct (d !! "features") as [[]|]; reflexivity.
Qed.

(** The table built from a mapping has one row, and a column per name. *)
Lemma single_row_lookup (feats : gmap string value) (name : string) :
  single_row feats !! name = (fun v => [v]) <$> (feats !! name).
Proof. unfold single_row. apply lookup_fmap. Qed.

(** C6, the failing input.  A body that is JSON but not a JSON object (a
    list, a number, a string, null) makes [input_fn] raise
    [AttributeError], which is not a [ValueError]. *)
Theorem input_fn_payload_not_object (request_body : string) (payload : value) :
  json_loads rt request_body = Ok payload ->
  match payload with JObj _ => False | _ => True end ->
  input_fn rt request_body "application/json" = Raise AttributeError /\
  isinstance AttributeError ValueError = false.
Proof.
  intros H Hp. unfold input_fn. cbn. rewrite H.
  destruct payload; cbn in *; try contradiction; split; reflexivity.
Qed.

End InferenceContract.

(** C1 as stated fails: a model whose probability call raises (here on
    a row without features, as scikit-learn does on a row of the wrong
    width) makes [predict_fn] raise instead of returning a result. *)
Lemma predict_fn_total_counterexample :
  ~ (forall (rt : Runtime) (input_data : features) (model : Pipeline)
            (thr : float),
       _decision_threshold model = Some thr ->
       exists r : value, predict_fn rt input_data model = Ok r).
Proof.
  intros H.
  destruct (H SampleRequests.checking_runtime (Array (Nd [Nd []]))
              Sample.model_0_7 Sample.f_0_7 eq_refl) as [r Hr].
  vm_compute in Hr. discriminate Hr.
Qed.

Lemma predict_fn_threshold_witness :
  (exists r : value,
     predict_fn Sample.runtime (Frame ∅) Sample.model_0_7 = Ok r /\
     getitem r "proba" = Ok (JFloat Sample.f_0_7) /\
     getitem r "prediction" = Ok (JInt 1)) /\
  predict_fn SampleRequests.checking_runtime (Array (Nd [Nd []]))
    Sample.model_0_7 = Raise ValueError.
Proof.
  split.
  - destruct (predict_fn_threshold Sample.runtime (Frame ∅) Sample.model_0_7
                Sample.f_0_7 eq_refl) as [H _].
    destruct (H [Scalar Sample.f_0_3; Scalar Sample.f_0_7] [] Sample.f_0_7
                eq_refl eq_refl) as (r & Hr & Hp & _ & _ & _ & He & _).
    exists r. split; [exact Hr|]. split; [exact Hp | apply He; reflexivity].
  - destruct (predict_fn_threshold SampleRequests.checking_runtime
                (Array (Nd [Nd []])) Sample.model_0_7 Sample.f_0_7 eq_refl)
      as [_ H].
    apply H. reflexivity.
Defined.

(** The boundary of the specification: 0.7 against 0.7 is positive,
    0.6999 against 0.7 is negative. *)
Example predict_fn_at_0_7 :
  predict_fn Sample.runtime (Frame ∅) Sample.model_0_7
    = Ok (prediction_dict 1 Sample.f_0_7 Sample.f_0_7).
Proof. reflexivity. Qed.

Example predict_fn_at_0_6999 :
  predict_fn Sample.runtime
    (Array (Nd [Nd [Scalar Sample.f_0_3001; Scalar Sample.f_0_6999]]))
    Sample.model_0_7
    = Ok (prediction_dict 0 Sample.f_0_6999 Sample.f_0_7).
Proof. reflexivity. Qed.

Lemma model_fn_threshold_witness :
  exists model : Pipeline,
    model_fn Sample.runtime Sample.local_world "model_dir" = Ok model /\
    _decision_threshold model = Some Sample.f_0_7 /\
    clf model = LogisticRegression 200.
Proof.
  destruct (model_fn_threshold Sample.runtime Sample.local_world "model_dir"
              _ eq_refl) as (model & t & Hm & Ht & _ & Hc & _ & H1 & _).
  exists model. split; [exact Hm|]. split; [|exact Hc].
  rewrite Ht. f_equal. apply (H1 (JObj Sample.local_doc)); reflexivity.
Defined.

(** With no configuration file at all the model still loads, with 0.5. *)
Example model_fn_without_config :
  _decision_threshold <$>
    model_fn Sample.runtime
      {| environ := ∅;
         fs := <["model_dir/model.joblib" := File "logreg pipeline"]> ∅;
         stdout := [] |} "model_dir"
  = Ok (Some f_0_5).
Proof. reflexivity. Qed.

Lemma input_fn_payload_not_object_witness :
  input_fn Sample.runtime "[1, 2, 3]" "application/json" = Raise AttributeError.
Proof.
  refine (proj1 (input_fn_payload_not_object Sample.runtime "[1, 2, 3]"
                   (JArr [JInt 1; JInt 2; JInt 3]) _ _)).
  - reflexivity.
  - exact I.
Defined.

(** ** Strings and paths *)

Lemma append_inv_head (a b c : string) : a ++ b = a ++ c -> b = c.
Proof.
  induction a as [|x a IH]; cbn; intros H; [exact H|].
  injection H as H. auto.
Qed.

(** The artifact and the report are two different files. *)
Lemma model_path_not_metrics_path (d : string) :
  path_join d "metrics.txt" <> path_join d "model.joblib".
Proof.
  unfold path_join. cbn.
  destruct (bool_decide (d = "") || ends_with_sep d); intros H;
    apply append_inv_head in H; discriminate H.
Qed.

#[local] Instance str_le_total : Total str_le.
Proof. intros a b. apply String.leb_total. Qed.

#[local] Instance str_le_trans : Transitive str_le.
Proof.
  intros a b c. unfold str_le, String.leb. intros Hab Hbc.
  destruct (String.compare a b) eqn:Eab; try discriminate.
  - apply String.compare_eq_iff in Eab. now subst.
  - destruct (String.compare b c) eqn:Ebc; try discriminate.
    + apply String.compare_eq_iff in Ebc. subst. now rewrite Eab.
    + apply String_as_OT.cmp_lt in Eab, Ebc.
      pose proof (String_as_OT.lt_trans _ _ _ Eab Ebc) as Hac.
      apply String_as_OT.cmp_lt in Hac. unfold String_as_OT.cmp in Hac.
      now rewrite Hac.
Qed.

(** The first element of [sorted l] is an element of [l] below all
    the others. *)
Lemma sorted_head (l : list string) (c : string) (rest : list string) :
  sorted l = c :: rest ->
  c ∈ l /\ forall c', c' ∈ l -> str_le c c'.
Proof.
  intros H.
  pose proof (merge_sort_Permutation str_le l) as P.
  pose proof (StronglySorted_merge_sort str_le l) as S.
  fold (sorted l) in P, S. rewrite H in P, S.
  split.
  - rewrite <- P. left.
  - intros c' Hc'. rewrite <- P in Hc'.
    apply list_elem_of_In in Hc'. destruct Hc' as [<-|Hin].
    + destruct (String.leb_total c c); assumption.
    + apply StronglySorted_inv in S as [_ F].
      rewrite Forall_forall in F. apply F. now apply list_elem_of_In.
Qed.

Lemma sorted_nil (l : list string) : sorted l = [] <-> l = [].
Proof.
  pose proof (merge_sort_Permutation str_le l) as P. fold (sorted l) in P.
  split; intros H.
  - rewrite H in P. symmetry in P. now apply Permutation_nil_r in P.
  - subst. reflexivity.
Qed.

(** ** The training pipeline *)

Section TrainingPipeline.

Context (rt : Runtime).

(** C9.  [load_csv] reads the path it is given when that is not a
    directory.  For a directory it reads the lexicographically first of
    the paths that [glob] finds for [*.csv] inside it, and raises
    [FileNotFoundError] when [glob] finds none. *)
Theorem load_csv_selects_first (w : World) (path_or_dir : string) :
  (forall path, load_csv_path rt w path_or_dir = Ok path ->
     load_csv rt w path_or_dir =
       (text ← read_file w path;
        df ← read_csv_text rt text;
        y ← column df "is_late";
        Ok (delete "is_late" df, y))) /\
  (isdir w path_or_dir = false ->
     load_csv_path rt w path_or_dir = Ok path_or_dir) /\
  (isdir w path_or_dir = true ->
     glob_glob rt (fs w) (path_join path_or_dir "*.csv") = [] ->
     load_csv_path rt w path_or_dir = Raise FileNotFoundError /\
     load_csv rt w path_or_dir = Raise FileNotFoundError) /\
  (isdir w path_or_dir = true ->
     glob_glob rt (fs w) (path_join path_or_dir "*.csv") <> [] ->
     exists c : string,
       load_csv_path rt w path_or_dir = Ok c /\
       c ∈ glob_glob rt (fs w) (path_join path_or_dir "*.csv") /\
       forall c', c' ∈ glob_glob rt (fs w) (path_join path_or_dir "*.csv") ->
                  str_le c c').
Proof.
  split; [|split; [|split]].
  - intros path H. unfold load_csv. rewrite H. reflexivity.
  - intros H. unfold load_csv_path. now rewrite H.
  - intros H G. unfold load_csv, load_csv_path. rewrite H, G. split; reflexivity.
  - intros H G. unfold load_csv_path. rewrite H.
    destruct (sorted (glob_glob rt (fs w) (path_join path_or_dir "*.csv")))
      as [|c rest] eqn:E.
    + apply (proj1 (sorted_nil _)) in E. now apply G in E.
    + exists c. split; [reflexivity|]. now apply sorted_head in E.
Qed.

(** A table without the label column is refused. *)
Lemma load_csv_missing_label (w : World) (path_or_dir path text : string)
    (df : DataFrame) :
  load_csv_path rt w path_or_dir = Ok path ->
  read_file w path = Ok text ->
  read_csv_text rt text = Ok df ->
  df !! "is_late" = None ->
  load_csv rt w path_or_dir = Raise KeyError.
Proof.
  intros Hp Hr Hc Hl. unfold load_csv. rewrite Hp. cbn. rewrite Hr. cbn.
  rewrite Hc. cbn. unfold column. now rewrite Hl.
Qed.

(** A data file that does not exist is refused. *)
Lemma load_csv_missing_file (w : World) (path : string) :
  fs w !! path = None ->
  load_csv rt w path = Raise FileNotFoundError.
Proof.
  intros H. unfold load_csv, load_csv_path, isdir.
  rewrite bool_decide_eq_false_2 by (rewrite H; discriminate).
  cbn. unfold read_file. now rewrite H.
Qed.

Lemma main_unfold (args : Args) (w : World) :
  main rt args w =
    match main_fit_and_score rt w args with
    | Ok s => main_pick_and_save rt s w
    | Raise e => (Raise e, w)
    end.
Proof.
  unfold main, reading, mbind, IO_bind.
  destruct (main_fit_and_score rt w args); reflexivity.
Qed.

(** A sequence returns only if both of its parts return. *)
Lemma IO_bind_Ok {A B} (m : IO A) (k : A -> IO B) (w w' : World) (b : B) :
  (m ≫= k) w = (Ok b, w') ->
  exists (a : A) (w1 : World), m w = (Ok a, w1) /\ k a w1 = (Ok b, w').
Proof.
  unfold mbind, IO_bind. destruct (m w) as [[a|e] w1]; intros H.
  - now exists a, w1.
  - discriminate H.
Qed.

Lemma write_file_Ok (path bytes : string) (w w' : World) :
  write_file path bytes w = (Ok (), w') ->
  fs w' = <[path := File bytes]> (fs w).
Proof.
  unfold write_file. destruct (fs w !! path) as [[|b]|]; intros H;
    inversion H; reflexivity.
Qed.

Lemma print_Ok (line : string) (w w' : World) (r : result unit) :
  print line w = (r, w') -> fs w' = fs w.
Proof. unfold print. intros H. inversion H. reflexivity. Qed.

Lemma reading_Ok {A} (f : World -> result A) (w w' : World) (a : A) :
  reading f w = (Ok a, w') -> f w = Ok a /\ w' = w.
Proof. unfold reading. intros H. inversion H. auto. Qed.

(** What [main_pick_and_save] leaves when it returns. *)
Lemma main_pick_and_save_Ok (s : Scored) (w w' : World) :
  main_pick_and_save rt s w = (Ok (), w') ->
  exists d : string,
    as_path (out_dir_of s) = Ok d /\
    fs w' !! path_join d "model.joblib"
      = Some (File (joblib_dumps rt
                      (if float_ge (f1_xgb_of s) (f1_lr_of s)
                       then xgb_of s else lr_of s))) /\
    fs w' !! path_join d "metrics.txt"
      = Some (File (metrics_text rt (f1_lr_of s) (f1_xgb_of s))).
Proof.
  unfold main_pick_and_save. intros H.
  apply IO_bind_Ok in H as (d & w0 & Hd & H).
  apply reading_Ok in Hd as [Hd E0]. subst w0.
  apply IO_bind_Ok in H as ([] & w1 & _ & H).
  apply IO_bind_Ok in H as ([] & w2 & H2 & H).
  apply IO_bind_Ok in H as ([] & w3 & H3 & H).
  apply IO_bind_Ok in H as (mode & w4 & Hm & H).
  apply reading_Ok in Hm as [_ E4]. subst w4.
  apply print_Ok in H. apply write_file_Ok in H2, H3.
  exists d. split; [exact Hd|]. rewrite H, H3, H2. split.
  - rewrite lookup_insert_ne by apply model_path_not_metrics_path.
    apply lookup_insert_eq.
  - apply lookup_insert_eq.
Qed.

(** C7.  When a run completes, the artifact written is the gradient-boosted
    pipeline exactly when its F1 is greater than or equal to the F1 of the
    baseline, and the baseline otherwise; the [best] line of the report
    written beside it names that same classifier.  So the strictly higher
    F1 wins and a tie goes to xgboost. *)
Theorem main_selects_best (args : Args) (w w' : World) (s : Scored) :
  main_fit_and_score rt w args = Ok s ->
  main rt args w = (Ok (), w') ->
  exists (d name : string) (best : Pipeline),
    as_path (out_dir_of s) = Ok d /\
    fs w' !! path_join d "model.joblib" = Some (File (joblib_dumps rt best)) /\
    fs w' !! path_join d "metrics.txt"
      = Some (File (("logreg_f1=" ++ format_4f rt (f1_lr_of s) ++ "
") ++ ("xgboost_f1=" ++ format_4f rt (f1_xgb_of s) ++ "
") ++ ("best=" ++ name ++ "
"))) /\
    ((float_ge (f1_xgb_of s) (f1_lr_of s) = true /\
      best = xgb_of s /\ name = "xgboost") \/
     (float_ge (f1_xgb_of s) (f1_lr_of s) = false /\
      best = lr_of s /\ name = "logreg")) /\
    (float_gt (f1_xgb_of s) (f1_lr_of s) = true -> name = "xgboost") /\
    (float_eq (f1_xgb_of s) (f1_lr_of s) = true -> name = "xgboost") /\
    (float_gt (f1_lr_of s) (f1_xgb_of s) = true -> name = "logreg").
Proof.
  intros Hs Hm. rewrite main_unfold, Hs in Hm.
  apply main_pick_and_save_Ok in Hm as (d & Hd & Hmodel & Hmetrics).
  exists d, (if float_ge (f1_xgb_of s) (f1_lr_of s) then "xgboost" else "logreg"),
    (if float_ge (f1_xgb_of s) (f1_lr_of s) then xgb_of s else lr_of s).
  split; [exact Hd|]. split; [exact Hmodel|]. split; [exact Hmetrics|].
  split; [|split; [|split]].
  - destruct (float_ge (f1_xgb_of s) (f1_lr_of s)); auto.
  - intros H. now rewrite (float_gt_ge _ _ H).
  - intros H. now rewrite (float_eq_ge _ _ H).
  - intros H. now rewrite (float_gt_not_ge _ _ H).
Qed.

(** Nothing is written before the candidates are scored. *)
Lemma main_pick_and_save_needed (args : Args) (w : World) (e : exn) :
  main_fit_and_score rt w args = Raise e -> main rt args w = (Raise e, w).
Proof. intros H. now rewrite main_unfold, H. Qed.

(** C8.  A run that fails before both candidates are scored ends with the
    exception of the failing step and the world it started from: no
    directory made, no artifact, no report.  This covers the platform
    variables missing ([resolve_paths] raising), the data file missing
    and the label column missing ([load_csv] raising).  Conversely a run
    that changed the file system had both candidates trained and scored. *)
Theorem main_aborts_without_writing (args : Args) (w : World) :
  (forall e, main_fit_and_score rt w args = Raise e ->
             main rt args w = (Raise e, w)) /\
  (forall cfg e, load_config rt w (config args) = Ok cfg ->
                 resolve_paths w cfg = Raise e ->
                 main rt args w = (Raise e, w)) /\
  (forall cfg path out_dir e,
     load_config rt w (config args) = Ok cfg ->
     resolve_paths w cfg = Ok (JStr path, out_dir) ->
     load_csv rt w path = Raise e ->
     main rt args w = (Raise e, w)) /\
  (fs (main rt args w).2 <> fs w ->
   exists s, main_fit_and_score rt w args = Ok s).
Proof.
  split; [|split; [|split]].
  - apply main_pick_and_save_needed.
  - intros cfg e Hc Hr. apply main_pick_and_save_needed.
    unfold main_fit_and_score. rewrite Hc. cbn. now rewrite Hr.
  - intros cfg path out_dir e Hc Hr Hl. apply main_pick_and_save_needed.
    unfold main_fit_and_score. rewrite Hc. cbn. rewrite Hr. cbn. now rewrite Hl.
  - intros H. rewrite main_unfold in H.
    destruct (main_fit_and_score rt w args) as [s|e]; [now exists s|].
    now contradiction H.
Qed.

End TrainingPipeline.

Lemma load_csv_selects_first_witness :
  load_csv_path Sample.runtime Sample.platform_world "/opt/ml/input/data/train"
    = Ok "/opt/ml/input/data/train/part-a.csv".
Proof.
  destruct (load_csv_selects_first Sample.runtime Sample.platform_world
              "/opt/ml/input/data/train") as (_ & _ & _ & H).
  destruct H as (c & Hc & Hin & Hmin); [reflexivity | discriminate |].
  rewrite Hc. f_equal.
  apply String.leb_antisym.
  - apply Hmin. vm_compute. right. left.
  - vm_compute in Hin. clear -Hin.
    apply list_elem_of_In in Hin. destruct Hin as [<-|[<-|[]]]; reflexivity.
Defined.

(** An empty channel directory: no candidate, [FileNotFoundError]. *)
Example load_csv_empty_directory :
  load_csv Sample.runtime
    {| environ := ∅; fs := <["/data" := Dir]> ∅; stdout := [] |} "/data"
  = Raise FileNotFoundError.
Proof. reflexivity. Qed.

Lemma main_selects_best_witness :
  exists (d name : string) (best : Pipeline),
    fs (main Sample.runtime {| config := None |} Sample.local_world).2
      !! path_join d "model.joblib"
      = Some (File (joblib_dumps Sample.runtime best)) /\
    d = "model_artifacts" /\ name = "xgboost" /\ best = xgb_of Sample.local_scored.
Proof.
  assert (main_fit_and_score Sample.runtime Sample.local_world {| config := None |}
          = Ok Sample.local_scored) as H1 by (vm_compute; reflexivity).
  assert (main Sample.runtime {| config := None |} Sample.local_world
          = (Ok (), (main Sample.runtime {| config := None |} Sample.local_world).2))
    as H2 by (vm_compute; reflexivity).
  destruct (main_selects_best Sample.runtime {| config := None |}
              Sample.local_world _ Sample.local_scored H1 H2)
    as (d & name & best & Hd & Hmodel & _ & Hbest & Hgt & _).
  exists d, name, best. split; [exact Hmodel|].
  split. { vm_compute in Hd. congruence. }
  split. { apply Hgt. vm_compute. reflexivity. }
  destruct Hbest as [(_ & Hb & _)|(Hf & _)].
  - exact Hb.
  - vm_compute in Hf. discriminate Hf.
Defined.

(** The report of that run. *)
Example main_metrics_report :
  fs (main Sample.runtime {| config := None |} Sample.local_world).2
    !! "model_artifacts/metrics.txt"
  = Some (File "logreg_f1=0.5000
xgboost_f1=1.0000
best=xgboost
").
Proof. vm_compute. reflexivity. Qed.

Lemma main_aborts_without_writing_witness :
  main Sample.runtime {| config := None |} Sample.broken_platform_world
    = (Raise EnvironmentError, Sample.broken_platform_world).
Proof.
  destruct (main_aborts_without_writing Sample.runtime {| config := None |}
              Sample.broken_platform_world) as (_ & H & _).
  apply (H (JObj Sample.sagemaker_doc)).
  - vm_compute. reflexivity.
  - vm_compute. reflexivity.
Defined.

(** * Further properties of the code *)

(** ** The configuration resolver, continued *)

Section ConfigResolverMore.

Context (rt : Runtime).

Lemma load_config_Ok_inv (w : World) (config_path : option string)
    (cfg : value) :
  load_config rt w config_path = Ok cfg ->
  exists d : gmap string value, cfg = JObj d /\ mode_recognized d.
Proof.
  unfold load_config. cbn.
  destruct (read_file w (config_file rt w config_path)) as [text|e]; cbn;
    [|discriminate].
  destruct (json_loads rt text) as [v|e]; cbn; [|discriminate].
  assert (forall d : gmap string value,
            (if negb (eq_str (default JNull (d !! "mode")) "local"
                      || eq_str (default JNull (d !! "mode")) "sagemaker")
             then Raise ValueError else Ok (JObj d)) = Ok cfg ->
            exists d0 : gmap string value, cfg = JObj d0 /\ mode_recognized d0) as K.
  { intros d. pose proof (mode_check d) as M.
    destruct (eq_str _ "local" || eq_str _ "sagemaker"); cbn; intros H;
      inversion H. exists d. split; [reflexivity | now apply M]. }
  destruct (truthy (environ w !! "MODE")); destruct v; cbn;
    try discriminate; apply K.
Qed.

(** X1.  Whatever [load_config] returns is a mapping whose mode is one of
    the two literals: callers never see a document with another mode, or
    a document that is not a mapping. *)
Theorem load_config_result_recognized (w : World) (config_path : option string)
    (cfg : value) :
  load_config rt w config_path = Ok cfg ->
  exists d : gmap string value, cfg = JObj d /\ mode_recognized d.
Proof. apply load_config_Ok_inv. Qed.

(** X2.  A result of [resolve_paths] in a mode other than [local] always
    consists of two non-empty strings, the values of the two variables
    that the platform section names. *)
Theorem resolve_paths_platform_result (w : World) (d : gmap string value)
    (mode a b : value) :
  d !! "mode" = Some mode ->
  eq_str mode "local" = false ->
  resolve_paths w (JObj d) = Ok (a, b) ->
  exists (sec : gmap string value) (n1 n2 x y : string),
    d !! "sagemaker" = Some (JObj sec) /\
    sec !! "train_channel" = Some (JStr n1) /\
    sec !! "model_dir" = Some (JStr n2) /\
    environ w !! n1 = Some x /\ environ w !! n2 = Some y /\
    x <> "" /\ y <> "" /\ a = JStr x /\ b = JStr y.
Proof.
  intros Hm Hl. unfold resolve_paths. cbn. rewrite Hm. cbn. rewrite Hl.
  destruct (d !! "sagemaker") as [[| | | | | |sec]|] eqn:Hs; cbn;
    try discriminate.
  destruct (sec !! "train_channel") as [[| | | |n1| |]|] eqn:H1; cbn;
    try discriminate.
  destruct (sec !! "model_dir") as [[| | | |n2| |]|] eqn:H2; cbn;
    try discriminate.
  destruct (environ w !! n1) as [x|] eqn:Ex; cbn; [|discriminate].
  destruct (bool_decide (x = "")) eqn:Bx; cbn; [discriminate|].
  destruct (environ w !! n2) as [y|] eqn:Ey; cbn; [|discriminate].
  destruct (bool_decide (y = "")) eqn:By; cbn; [discriminate|].
  intros H. inversion H. subst a b.
  apply bool_decide_eq_false in Bx, By.
  exists sec, n1, n2, x, y. repeat split; auto.
Qed.

(** X3.  Missing keys: a document without [mode] raises [KeyError]; in
    mode [local] a document without a [local] section raises [KeyError];
    in any other mode a document without a [sagemaker] section raises
    [KeyError], whatever the environment holds; a document that is not a
    mapping raises [TypeError]. *)
Theorem resolve_paths_missing_keys (w : World) :
  (forall d : gmap string value,
     d !! "mode" = None -> resolve_paths w (JObj d) = Raise KeyError) /\
  (forall d : gmap string value,
     d !! "mode" = Some (JStr "local") -> d !! "local" = None ->
     resolve_paths w (JObj d) = Raise KeyError) /\
  (forall (d : gmap string value) (mode : value),
     d !! "mode" = Some mode -> eq_str mode "local" = false ->
     d !! "sagemaker" = None ->
     resolve_paths w (JObj d) = Raise KeyError) /\
  (forall cfg : value,
     match cfg with JObj _ => False | _ => True end ->
     resolve_paths w cfg = Raise TypeError).
Proof.
  repeat split.
  - intros d H. unfold resolve_paths. cbn. now rewrite H.
  - intros d Hm Hl. unfold resolve_paths. cbn. rewrite Hm. cbn. now rewrite Hl.
  - intros d mode Hm Hl Hs. unfold resolve_paths. cbn. rewrite Hm. cbn.
    rewrite Hl, Hs. reflexivity.
  - intros cfg H. destruct cfg; cbn in H; try contradiction; reflexivity.
Qed.

(** X4.  [resolve_paths] does not check the mode: with any mode that is
    not the string [local] (another string, a number, null) it does what
    it does for ["sagemaker"]. *)
Theorem resolve_paths_any_other_mode (w : World) (d : gmap string value)
    (mode : value) :
  eq_str mode "local" = false ->
  resolve_paths w (JObj (<["mode" := mode]> d))
    = resolve_paths w (JObj (<["mode" := JStr "sagemaker"]> d)).
Proof.
  intros Hl. unfold resolve_paths. cbn.
  rewrite !lookup_insert_eq. cbn. rewrite Hl.
  rewrite !lookup_insert_ne by discriminate. reflexivity.
Qed.

(** X5.  [MODE] wins over the file: when [MODE] lower-cases to
    ["sagemaker"], a document of any mode is resolved from the two
    platform variables. *)
Theorem MODE_override_resolves_from_environment (w : World)
    (config_path : option string) (text v a b x y : string)
    (d sec : gmap string value) :
  read_file w (config_file rt w config_path) = Ok text ->
  json_loads rt text = Ok (JObj d) ->
  environ w !! "MODE" = Some v -> v <> "" ->
  str_lower rt v = "sagemaker" ->
  d !! "sagemaker" = Some (JObj sec) ->
  sec !! "train_channel" = Some (JStr a) ->
  sec !! "model_dir" = Some (JStr b) ->
  environ w !! a = Some x -> x <> "" ->
  environ w !! b = Some y -> y <> "" ->
  (cfg ← load_config rt w config_path; resolve_paths w cfg) = Ok (JStr x, JStr y).
Proof.
  intros Hr Hj Hv Hne Hlow Hs Ha Hb Hx Hxe Hy Hye.
  assert (load_config rt w config_path
          = Ok (JObj (<["mode" := JStr "sagemaker"]> d))) as E.
  { rewrite (load_config_unfold rt w config_path text d Hr Hj).
    unfold with_MODE. rewrite Hv, (bool_decide_eq_false_2 _ Hne), Hlow.
    rewrite lookup_insert_eq. reflexivity. }
  rewrite E.
  change (resolve_paths w (JObj (<["mode" := JStr "sagemaker"]> d))
          = Ok (JStr x, JStr y)).
  rewrite (resolve_paths_platform w _ sec (JStr "sagemaker") a b);
    try assumption; try reflexivity.
  - rewrite Hx, Hy, !truthy_Some by assumption. reflexivity.
  - apply lookup_insert_eq.
  - now rewrite lookup_insert_ne by discriminate.
Qed.

End ConfigResolverMore.

Lemma load_config_result_recognized_witness :
  exists d : gmap string value,
    JObj Sample.local_doc = JObj d /\ mode_recognized d.
Proof.
  apply (load_config_result_recognized Sample.runtime Sample.local_world None).
  vm_compute. reflexivity.
Defined.

Lemma resolve_paths_platform_result_witness :
  exists (sec : gmap string value) (n1 n2 x y : string),
    Sample.sagemaker_doc !! "sagemaker" = Some (JObj sec) /\
    sec !! "train_channel" = Some (JStr n1) /\
    sec !! "model_dir" = Some (JStr n2) /\
    environ Sample.platform_world !! n1 = Some x /\
    environ Sample.platform_world !! n2 = Some y /\
    x <> "" /\ y <> "" /\
    JStr "/opt/ml/input/data/train" = JStr x /\ JStr "/opt/ml/model" = JStr y.
Proof.
  apply (resolve_paths_platform_result Sample.platform_world Sample.sagemaker_doc
           (JStr "sagemaker")); reflexivity.
Defined.

Lemma resolve_paths_missing_keys_witness :
  resolve_paths Sample.local_world (JObj ∅) = Raise KeyError /\
  resolve_paths Sample.local_world (JArr []) = Raise TypeError.
Proof.
  destruct (resolve_paths_missing_keys Sample.local_world) as (H1 & _ & _ & H4).
  split; [apply H1; reflexivity | apply H4; exact I].
Defined.

Lemma resolve_paths_any_other_mode_witness :
  resolve_paths Sample.platform_world (JObj (<["mode" := JInt 3]> Sample.local_doc))
    = resolve_paths Sample.platform_world
        (JObj (<["mode" := JStr "sagemaker"]> Sample.local_doc)).
Proof.
  apply resolve_paths_any_other_mode. reflexivity.
Defined.

Lemma MODE_override_resolves_from_environment_witness :
  (cfg ← load_config Sample.runtime Sample.platform_world None;
   resolve_paths Sample.platform_world cfg)
  = Ok (JStr "/opt/ml/input/data/train", JStr "/opt/ml/model").
Proof.
  apply (MODE_override_resolves_from_environment Sample.runtime
           Sample.platform_world None "local.json" "SageMaker"
           "SM_CHANNEL_TRAIN" "SM_MODEL_DIR" _ _ Sample.local_doc
           (<["train_channel" := JStr "SM_CHANNEL_TRAIN"]>
            (<["model_dir" := JStr "SM_MODEL_DIR"]> ∅)));
    try reflexivity; discriminate.
Defined.

(** ** The inference contract, continued *)

Section InferenceContractMore.

Context (rt : Runtime).

Lemma with_MODE_other_key (w : World) (d : gmap string value) (k : string) :
  k <> "mode" -> with_MODE rt w d !! k = d !! k.
Proof.
  intros Hk. unfold with_MODE.
  destruct (environ w !! "MODE") as [v|]; [|reflexivity].
  destruct (bool_decide (v = "")); [reflexivity|].
  now rewrite lookup_insert_ne by congruence.
Qed.

(** X6.  A configuration whose mode is not recognized costs the
    configured threshold: [model_fn] returns the artifact (its steps and
    fitted state as loaded) with [_decision_threshold] set to 0.5,
    whatever the inference section of the document says. *)
Theorem model_fn_unrecognized_mode (w : World) (model_dir text : string)
    (m : Pipeline) (d : gmap string value) :
  joblib_load rt w (path_join model_dir "model.joblib") = Ok m ->
  read_file w (config_file rt w None) = Ok text ->
  json_loads rt text = Ok (JObj d) ->
  ~ mode_recognized (with_MODE rt w d) ->
  exists model : Pipeline,
    model_fn rt w model_dir = Ok model /\
    _decision_threshold model = Some f_0_5 /\
    pre model = pre m /\ clf model = clf m /\ learned model = learned m.
Proof.
  intros Hm Hr Hj Hn. unfold model_fn. cbn. rewrite Hm. cbn.
  rewrite (load_config_unfold rt w None text d Hr Hj).
  pose proof (mode_check (with_MODE rt w d)) as M.
  destruct (eq_str _ "local" || eq_str _ "sagemaker").
  - exfalso. apply Hn, M. reflexivity.
  - exists (set_decision_threshold m f_0_5). repeat split.
Qed.

(** X7.  From the configuration file to the answer: with a recognized
    mode and a float threshold [t] in the inference section, loading the
    model and predicting reports [t] as the threshold and labels by
    [proba >= t]. *)
Theorem serving_uses_configured_threshold (w : World) (model_dir text : string)
    (m : Pipeline) (d i : gmap string value) (t p : float)
    (input_data : features) (a : ndarray) :
  joblib_load rt w (path_join model_dir "model.joblib") = Ok m ->
  read_file w (config_file rt w None) = Ok text ->
  json_loads rt text = Ok (JObj d) ->
  mode_recognized (with_MODE rt w d) ->
  d !! "inference" = Some (JObj i) ->
  i !! "threshold" = Some (JFloat t) ->
  predict_proba rt (set_decision_threshold m t) input_data = Ok a ->
  item_0_1 a = Ok p ->
  (model ← model_fn rt w model_dir; predict_fn rt input_data model)
    = Ok (prediction_dict (if float_ge p t then 1 else 0) p t).
Proof.
  intros Hm Hr Hj Hrec Hi Ht Ha Hp.
  assert (model_fn rt w model_dir = Ok (set_decision_threshold m t)) as E.
  { assert (threshold rt (JObj (with_MODE rt w d)) = Ok t) as T.
    { rewrite (threshold_unfold rt (with_MODE rt w d) i).
      - rewrite Ht. reflexivity.
      - rewrite with_MODE_other_key by discriminate. exact Hi. }
    unfold model_fn. cbn. rewrite Hm. cbn.
    rewrite (load_config_unfold rt w None text d Hr Hj).
    pose proof (mode_check (with_MODE rt w d)) as M.
    destruct (eq_str _ "local" || eq_str _ "sagemaker").
    - unfold mbind, result_bind. rewrite T. reflexivity.
    - apply M in Hrec. discriminate Hrec. }
  rewrite E.
  change (predict_fn rt input_data (set_decision_threshold m t)
          = Ok (prediction_dict (if float_ge p t then 1 else 0) p t)).
  unfold predict_fn. cbn. rewrite Ha. cbn. rewrite Hp. reflexivity.
Qed.

(** X8.  The table that [input_fn] builds from a mapping has exactly the
    names of the mapping as columns and exactly one cell in each, the
    value sent under that name. *)
Theorem input_fn_frame_shape (request_body request_content_type : string)
    (df : DataFrame) :
  input_fn rt request_body request_content_type = Ok (Frame df) ->
  exists (payload feats : gmap string value),
    json_loads rt request_body = Ok (JObj payload) /\
    payload !! "features" = Some (JObj feats) /\
    dom df = dom feats /\
    forall name, df !! name = (fun v => [v]) <$> feats !! name.
Proof.
  unfold input_fn.
  destruct (bool_decide (request_content_type = "application/json"));
    [|discriminate].
  cbn. destruct (json_loads rt request_body) as [[| | | | | |payload]|e];
    cbn; try discriminate.
  destruct (payload !! "features") as [[| | | | |l|feats]|] eqn:F; cbn;
    try discriminate.
  - destruct (np_array_float rt (JArr [JArr l])); cbn; discriminate.
  - intros H. inversion H. exists payload, feats.
    split; [reflexivity|]. split; [exact F|]. split.
    + unfold single_row. apply dom_fmap_L.
    + intros name. apply single_row_lookup.
Qed.

(** X9.  What [input_fn] refuses with [ValueError]: any content type
    other than [application/json], without looking at the body; and a
    JSON object that has no [features] entry, or whose entry is null, a
    boolean, a number or a string. *)
Theorem input_fn_rejects (request_body : string) :
  (forall request_content_type : string,
     request_content_type <> "application/json" ->
     input_fn rt request_body request_content_type = Raise ValueError) /\
  (forall payload : gmap string value,
     json_loads rt request_body = Ok (JObj payload) ->
     match payload !! "features" with
     | Some (JObj _) | Some (JArr _) => False
     | _ => True
     end ->
     input_fn rt request_body "application/json" = Raise ValueError).
Proof.
  split.
  - intros ct H. unfold input_fn. now rewrite bool_decide_eq_false_2.
  - intros payload Hj Hf. unfold input_fn. cbn. rewrite Hj. cbn.
    destruct (payload !! "features") as [[]|]; cbn in *;
      try contradiction; reflexivity.
Qed.

(** X11.  The handler without configuration and the configured handler
    give the same label and the same probability for a model that
    carries no threshold or the threshold 0.5; the configured one adds
    the [threshold] entry, the plain one has none.  They raise the same
    exceptions. *)
Theorem predict_fn_handlers_agree (input_data : features) (model : Pipeline) :
  default f_0_5 (_decision_threshold model) = f_0_5 ->
  match predict_fn rt input_data model, Inference.predict_fn rt input_data model with
  | Ok r, Ok r' =>
      getitem r "prediction" = getitem r' "prediction" /\
      getitem r "proba" = getitem r' "proba" /\
      getitem r "threshold" = Ok (JFloat f_0_5) /\
      getitem r' "threshold" = Raise KeyError
  | Raise e, Raise e' => e = e'
  | _, _ => False
  end.
Proof.
  intros Ht. unfold predict_fn, Inference.predict_fn. cbn.
  destruct (predict_proba rt model input_data) as [a|e]; cbn; [|reflexivity].
  destruct (item_0_1 a) as [p|e]; cbn; [|reflexivity].
  rewrite Ht. repeat split.
Qed.

End InferenceContractMore.

Lemma model_fn_unrecognized_mode_witness :
  exists model : Pipeline,
    model_fn Sample.runtime
      {| environ := <["MODE" := "Production"]> ∅;
         fs := fs Sample.local_world; stdout := [] |} "model_dir" = Ok model /\
    _decision_threshold model = Some f_0_5.
Proof.
  destruct (model_fn_unrecognized_mode Sample.runtime
              {| environ := <["MODE" := "Production"]> ∅;
                 fs := fs Sample.local_world; stdout := [] |}
              "model_dir" "local.json" SampleRequests.artifact Sample.local_doc)
    as (model & Hm & Ht & _); try reflexivity.
  - intros [H|H]; vm_compute in H; discriminate H.
  - exists model. split; [exact Hm | exact Ht].
Defined.

Lemma serving_uses_configured_threshold_witness :
  (model ← model_fn Sample.runtime Sample.local_world "model_dir";
   predict_fn Sample.runtime (Frame ∅) model)
  = Ok (prediction_dict 1 Sample.f_0_7 Sample.f_0_7).
Proof.
  apply (serving_uses_configured_threshold Sample.runtime Sample.local_world
           "model_dir" "local.json" SampleRequests.artifact Sample.local_doc
           (<["threshold" := JFloat Sample.f_0_7]> ∅) Sample.f_0_7 Sample.f_0_7
           (Frame ∅) (Nd [Nd [Scalar Sample.f_0_3; Scalar Sample.f_0_7]]));
    try reflexivity.
  left. reflexivity.
Defined.

Lemma input_fn_frame_shape_witness :
  exists (payload feats : gmap string value),
    json_loads SampleRequests.runtime "request.json" = Ok (JObj payload) /\
    payload !! "features" = Some (JObj feats) /\
    dom (single_row SampleRequests.request_features) = dom feats /\
    forall name, single_row SampleRequests.request_features !! name
                 = (fun v => [v]) <$> feats !! name.
Proof.
  apply (input_fn_frame_shape SampleRequests.runtime "request.json"
           "application/json").
  reflexivity.
Defined.

Lemma input_fn_rejects_witness :
  input_fn Sample.runtime "[1, 2, 3]" "text/plain" = Raise ValueError /\
  input_fn Sample.runtime "local.json" "application/json" = Raise ValueError.
Proof.
  destruct (input_fn_rejects Sample.runtime "[1, 2, 3]") as [H1 _].
  destruct (input_fn_rejects Sample.runtime "local.json") as [_ H2].
  split.
  - apply H1. discriminate.
  - apply (H2 Sample.local_doc); [reflexivity | exact I].
Defined.

Lemma predict_fn_handlers_agree_witness :
  match predict_fn Sample.runtime (Frame ∅)
          {| pre := {| cat := []; num := [] |}; clf := LogisticRegression 200;
             learned := Some []; _decision_threshold := None |},
        Inference.predict_fn Sample.runtime (Frame ∅)
          {| pre := {| cat := []; num := [] |}; clf := LogisticRegression 200;
             learned := Some []; _decision_threshold := None |} with
  | Ok r, Ok r' =>
      getitem r "prediction" = getitem r' "prediction" /\
      getitem r "proba" = getitem r' "proba" /\
      getitem r "threshold" = Ok (JFloat f_0_5) /\
      getitem r' "threshold" = Raise KeyError
  | Raise e, Raise e' => e = e'
  | _, _ => False
  end.
Proof.
  apply (predict_fn_handlers_agree Sample.runtime). reflexivity.
Defined.

(** ** Order of floats *)

(** [>=] on floats is transitive. *)
Lemma float_ge_trans (a b c : float) :
  float_ge a b = true -> float_ge b c = true -> float_ge a c = true.
Proof.
  unfold float_ge, SFleb, SFcompare.
  destruct a as [sa|sa| |sa ma ea], b as [sb|sb| |sb mb eb],
           c as [sc|sc| |sc mc ec];
    try destruct sa; try destruct sb; try destruct sc;
    cbn; try discriminate; try reflexivity;
    repeat match goal with
           | |- context [Pos.compare_cont Eq ?p ?q] =>
               change (Pos.compare_cont Eq p q) with (p ?= q)%positive
           end;
    destruct (Z.compare_spec eb ea), (Z.compare_spec ec eb),
             (Z.compare_spec ec ea);
    try lia; cbn; try discriminate; try reflexivity;
    destruct (Pos.compare_spec mb ma), (Pos.compare_spec mc mb),
             (Pos.compare_spec mc ma);
    try lia; cbn; try discriminate; reflexivity.
Qed.

Section PredictOrder.

Context (rt : Runtime).

Lemma predict_fn_label (input_data : features) (model : Pipeline)
    (a : ndarray) (p : float) :
  predict_proba rt model input_data = Ok a ->
  item_0_1 a = Ok p ->
  (r ← predict_fn rt input_data model; getitem r "prediction")
    = Ok (JInt (if float_ge p (default f_0_5 (_decision_threshold model))
                then 1 else 0)).
Proof.
  intros Ha Hp. unfold predict_fn. cbn. rewrite Ha. cbn. rewrite Hp. reflexivity.
Qed.

(** X10.  The label follows the order of the probabilities and of the
    thresholds: if an input is labelled 1, so is every input to which the
    same model gives a probability at least as high; and an input
    labelled 1 under a threshold is labelled 1 under every lower
    threshold. *)
Theorem predict_fn_monotone (model : Pipeline) :
  (forall (x1 x2 : features) (a1 a2 : ndarray) (p1 p2 : float),
     predict_proba rt model x1 = Ok a1 -> item_0_1 a1 = Ok p1 ->
     predict_proba rt model x2 = Ok a2 -> item_0_1 a2 = Ok p2 ->
     float_ge p2 p1 = true ->
     (r ← predict_fn rt x1 model; getitem r "prediction") = Ok (JInt 1) ->
     (r ← predict_fn rt x2 model; getitem r "prediction") = Ok (JInt 1)) /\
  (forall (x : features) (a a' : ndarray) (p t t' : float),
     predict_proba rt (set_decision_threshold model t) x = Ok a ->
     predict_proba rt (set_decision_threshold model t') x = Ok a' ->
     item_0_1 a = Ok p -> item_0_1 a' = Ok p ->
     float_ge t t' = true ->
     (r ← predict_fn rt x (set_decision_threshold model t);
      getitem r "prediction") = Ok (JInt 1) ->
     (r ← predict_fn rt x (set_decision_threshold model t');
      getitem r "prediction") = Ok (JInt 1)).
Proof.
  split.
  - intros x1 x2 a1 a2 p1 p2 H1 I1 H2 I2 Hge.
    rewrite (predict_fn_label x1 model a1 p1 H1 I1).
    rewrite (predict_fn_label x2 model a2 p2 H2 I2).
    destruct (float_ge p1 _) eqn:E1; [|discriminate]. intros _.
    now rewrite (float_ge_trans _ _ _ Hge E1).
  - intros x a a' p t t' H1 H2 I1 I2 Hge.
    rewrite (predict_fn_label x _ a p H1 I1).
    rewrite (predict_fn_label x _ a' p H2 I2). cbn.
    destruct (float_ge p t) eqn:E1; [|discriminate]. intros _.
    now rewrite (float_ge_trans _ _ _ E1 Hge).
Qed.

End PredictOrder.

Lemma predict_fn_monotone_witness :
  (r ← predict_fn Sample.runtime
         (Array (Nd [Nd [Scalar Sample.f_0_3; Scalar f_1_0]])) Sample.model_0_7;
   getitem r "prediction") = Ok (JInt 1).
Proof.
  destruct (predict_fn_monotone Sample.runtime Sample.model_0_7) as [H _].
  apply (H (Frame ∅) (Array (Nd [Nd [Scalar Sample.f_0_3; Scalar f_1_0]]))
           (Nd [Nd [Scalar Sample.f_0_3; Scalar Sample.f_0_7]])
           (Nd [Nd [Scalar Sample.f_0_3; Scalar f_1_0]])
           Sample.f_0_7 f_1_0); reflexivity.
Defined.

(** ** The training pipeline, continued *)

Lemma length_append (a b : string) :
  String.length (a ++ b) = String.length a + String.length b.
Proof. induction a as [|c a IH]; simpl; [reflexivity | now rewrite IH]. Qed.

(** A file inside the output directory is not the directory itself. *)
Lemma path_join_not_dir (d name : string) :
  starts_with_sep name = false -> name <> "" -> path_join d name <> d.
Proof.
  intros Hs Hn. unfold path_join. rewrite Hs.
  assert (0 < String.length name) as L.
  { destruct name; [contradiction | cbn; lia]. }
  destruct (bool_decide (d = "") || ends_with_sep d); intros H;
    apply (f_equal String.length) in H; rewrite !length_append in H;
    cbn in H; lia.
Qed.

#[local] Instance str_le_antisym : AntiSymm eq str_le.
Proof. intros a b H1 H2. now apply String.leb_antisym. Qed.

(** [sorted] gives the same list for every order of its input. *)
Lemma sorted_Permutation (l l' : list string) :
  l ≡ₚ l' -> sorted l = sorted l'.
Proof.
  intros P. apply (StronglySorted_unique str_le).
  - apply StronglySorted_merge_sort; apply _.
  - apply StronglySorted_merge_sort; apply _.
  - unfold sorted. now rewrite !merge_sort_Permutation.
Qed.



Lemma makedirs_Ok (d : string) (w : World) :
  d <> "" ->
  fs w !! d = None \/ fs w !! d = Some Dir ->
  exists w1 : World,
    makedirs d w = (Ok (), w1) /\ stdout w1 = stdout w /\
    forall p, p <> d -> fs w1 !! p = fs w !! p.
Proof.
  intros Hne Hd. unfold makedirs. rewrite (bool_decide_eq_false_2 _ Hne).
  destruct Hd as [->| ->]; eexists; (split; [reflexivity|]); cbn;
    (split; [reflexivity|]); intros p Hp; auto.
  now rewrite lookup_insert_ne by congruence.
Qed.

Lemma write_file_Ok_eq (path bytes : string) (w : World) :
  fs w !! path <> Some Dir ->
  write_file path bytes w =
    (Ok (), {| environ := environ w; fs := <[path := File bytes]> (fs w);
               stdout := stdout w |}).
Proof.
  intros H. unfold write_file.
  destruct (fs w !! path) as [[|b]|]; [contradiction | reflexivity | reflexivity].
Qed.

Lemma write_file_Dir (path bytes : string) (w : World) :
  fs w !! path = Some Dir ->
  write_file path bytes w = (Raise IsADirectoryError, w).
Proof. intros H. unfold write_file. now rewrite H. Qed.

Section TrainingPipelineMore.

Context (rt : Runtime).

(** X13.  What [load_csv] returns: the features are the table that was
    read without its [is_late] column (every other column as it was
    read), and the labels are the cells of that column. *)
Theorem load_csv_separates_label (w : World) (path_or_dir : string)
    (X : DataFrame) (y : list value) :
  load_csv rt w path_or_dir = Ok (X, y) ->
  exists (path text : string) (df : DataFrame),
    load_csv_path rt w path_or_dir = Ok path /\
    read_file w path = Ok text /\
    read_csv_text rt text = Ok df /\
    df !! "is_late" = Some y /\
    X !! "is_late" = None /\
    forall name, name <> "is_late" -> X !! name = df !! name.
Proof.
  unfold load_csv.
  destruct (load_csv_path rt w path_or_dir) as [path|e] eqn:E1; cbn;
    [|discriminate].
  destruct (read_file w path) as [text|e] eqn:E2; cbn; [|discriminate].
  destruct (read_csv_text rt text) as [df|e] eqn:E3; cbn; [|discriminate].
  unfold column. destruct (df !! "is_late") as [cells|] eqn:L; cbn;
    [|discriminate].
  intros H. inversion H. subst.
  exists path, text, df.
  split; [reflexivity|]. split; [exact E2|]. split; [exact E3|].
  split; [exact L|]. split.
  - apply lookup_delete_eq.
  - intros name Hn. now rewrite lookup_delete_ne by congruence.
Qed.

(** X14.  [build_preprocessor] sends every column of the table to exactly
    one of the two transformers: no column is left out, none is listed
    twice, none is invented; the categorical ones are those of dtype
    [object].  The script without configuration builds the same. *)
Theorem build_preprocessor_partition (X : DataFrame) :
  (forall name,
     name ∈ cat (build_preprocessor rt X) <->
     exists cells, X !! name = Some cells /\ is_object_dtype rt cells = true) /\
  (forall name,
     name ∈ num (build_preprocessor rt X) <->
     exists cells, X !! name = Some cells /\ is_object_dtype rt cells = false) /\
  (forall name,
     name ∈ (cat (build_preprocessor rt X) ++ num (build_preprocessor rt X))%list
     <-> is_Some (X !! name)) /\
  NoDup (cat (build_preprocessor rt X) ++ num (build_preprocessor rt X))%list /\
  Train.build_preprocessor rt X = build_preprocessor rt X.
Proof.
  assert (forall (b : bool) name,
            name ∈ (map_to_list
                      (filter (fun kv : string * list value =>
                                 is_object_dtype rt kv.2 = b) X)).*1 <->
            exists cells, X !! name = Some cells /\ is_object_dtype rt cells = b)
    as K.
  { intros b name. rewrite list_elem_of_fmap. split.
    - intros [[n cells] [-> Hin]]. cbn.
      apply elem_of_map_to_list, map_lookup_filter_Some in Hin.
      exists cells. exact Hin.
    - intros [cells [Hl Hb]]. exists (name, cells). split; [reflexivity|].
      apply elem_of_map_to_list, map_lookup_filter_Some. now split. }
  assert (forall b : bool,
            NoDup (map_to_list
                     (filter (fun kv : string * list value =>
                                is_object_dtype rt kv.2 = b) X)).*1) as N.
  { intros b. apply NoDup_fst_map_to_list. }
  unfold build_preprocessor. cbn [cat num].
  split; [apply K|]. split; [apply K|]. split; [|split].
  - intros name. rewrite elem_of_app, !K. split.
    + intros [[cells [H _]]|[cells [H _]]]; now exists cells.
    + intros [cells H]. destruct (is_object_dtype rt cells) eqn:E;
        [left | right]; now exists cells.
  - apply NoDup_app. split; [apply N|]. split; [|apply N].
    intros name H1 H2. apply K in H1 as [c1 [L1 B1]].
    apply K in H2 as [c2 [L2 B2]]. congruence.
  - reflexivity.
Qed.

(** X15.  The file that [load_csv] takes from a directory does not depend
    on the order in which [glob] lists its matches. *)
Theorem load_csv_path_order_independent (rt' : Runtime) (w : World)
    (path_or_dir : string) :
  glob_glob rt (fs w) (path_join path_or_dir "*.csv")
    ≡ₚ glob_glob rt' (fs w) (path_join path_or_dir "*.csv") ->
  load_csv_path rt w path_or_dir = load_csv_path rt' w path_or_dir.
Proof.
  intros P. unfold load_csv_path. now rewrite (sorted_Permutation _ _ P).
Qed.



(** X17.  The artifact is written before the report.  When the report
    cannot be written because [metrics.txt] is a directory, the run
    raises [IsADirectoryError] and leaves the new artifact behind,
    without a report and without the closing line. *)
Theorem main_report_failure_keeps_artifact (args : Args) (w : World)
    (s : Scored) (d : string) :
  main_fit_and_score rt w args = Ok s ->
  as_path (out_dir_of s) = Ok d ->
  d <> "" ->
  (fs w !! d = None \/ fs w !! d = Some Dir) ->
  fs w !! path_join d "model.joblib" <> Some Dir ->
  fs w !! path_join d "metrics.txt" = Some Dir ->
  (main rt args w).1 = Raise IsADirectoryError /\
  fs (main rt args w).2 !! path_join d "model.joblib"
    = Some (File (joblib_dumps rt
                    (if float_ge (f1_xgb_of s) (f1_lr_of s)
                     then xgb_of s else lr_of s))) /\
  fs (main rt args w).2 !! path_join d "metrics.txt" = Some Dir /\
  stdout (main rt args w).2 = stdout w.
Proof.
  intros Hs Hd Hne Hdir Hm Ht. rewrite main_unfold, Hs.
  pose proof (path_join_not_dir d "model.joblib" eq_refl ltac:(discriminate)) as N1.
  pose proof (path_join_not_dir d "metrics.txt" eq_refl ltac:(discriminate)) as N2.
  pose proof (model_path_not_metrics_path d) as N3.
  destruct (makedirs_Ok d w Hne Hdir) as (w1 & M1 & S1 & F1).
  assert (fs w1 !! path_join d "model.joblib" <> Some Dir) as Hm1
    by (now rewrite F1 by assumption).
  set (best := if float_ge (f1_xgb_of s) (f1_lr_of s) then xgb_of s else lr_of s).
  pose proof (write_file_Ok_eq (path_join d "model.joblib") (joblib_dumps rt best)
                w1 Hm1) as M2.
  set (w2 := {| environ := environ w1;
                fs := <[path_join d "model.joblib" := File (joblib_dumps rt best)]>
                        (fs w1);
                stdout := stdout w1 |}) in M2.
  assert (fs w2 !! path_join d "metrics.txt" = Some Dir) as Ht2.
  { cbn. rewrite lookup_insert_ne by congruence. now rewrite F1 by assumption. }
  pose proof (write_file_Dir (path_join d "metrics.txt")
                (metrics_text rt (f1_lr_of s) (f1_xgb_of s)) w2 Ht2) as M3.
  assert (main_pick_and_save rt s w = (Raise IsADirectoryError, w2)) as E.
  { unfold main_pick_and_save, mbind, IO_bind, reading. rewrite Hd, M1.
    fold best. rewrite M2, M3. reflexivity. }
  rewrite E. cbn. split; [reflexivity|]. split; [apply lookup_insert_eq|].
  split; [exact Ht2 | exact S1].
Qed.

(** X18.  When the output directory of the configuration is an existing
    file, the run raises [FileExistsError] after training and writes
    nothing. *)
Theorem main_out_dir_is_file (args : Args) (w : World) (s : Scored)
    (d bytes : string) :
  main_fit_and_score rt w args = Ok s ->
  as_path (out_dir_of s) = Ok d ->
  d <> "" ->
  fs w !! d = Some (File bytes) ->
  main rt args w = (Raise FileExistsError, w).
Proof.
  intros Hs Hd Hne Hf. rewrite main_unfold, Hs.
  unfold main_pick_and_save, mbind, IO_bind, reading. rewrite Hd.
  unfold makedirs. rewrite (bool_decide_eq_false_2 _ Hne), Hf. reflexivity.
Qed.

(** Without a directory to search, [load_csv] is [load_data]. *)
Lemma load_csv_plain_file (w : World) (path : string) :
  isdir w path = false -> load_csv rt w path = Train.load_data rt w path.
Proof.
  intros H. unfold load_csv, load_csv_path, Train.load_data. now rewrite H.
Qed.

Lemma main_fit_and_score_plain (args : Args) (w : World) (cfg : value)
    (data_path out_dir : string) :
  load_config rt w (config args) = Ok cfg ->
  resolve_paths w cfg = Ok (JStr data_path, JStr out_dir) ->
  isdir w data_path = false ->
  main_fit_and_score rt w args =
    (fun '(lr, f1_lr, xgb, f1_xgb) =>
       {| cfg_of := cfg; out_dir_of := JStr out_dir; lr_of := lr;
          f1_lr_of := f1_lr; xgb_of := xgb; f1_xgb_of := f1_xgb |})
    <$> Train.main_fit_and_score rt w
          {| Train.data := data_path; Train.out := out_dir |}.
Proof.
  intros Hc Hr Hd. unfold main_fit_and_score, Train.main_fit_and_score.
  rewrite Hc. cbn. rewrite Hr. cbn. rewrite (load_csv_plain_file w _ Hd).
  destruct (Train.load_data rt w data_path) as [[X y]|e]; cbn; [|reflexivity].
  destruct (train_test_split rt X y) as [[[[X_tr X_te] y_tr] y_te]|e]; cbn;
    [|reflexivity].
  change (Train.build_preprocessor rt X) with (build_preprocessor rt X).
  destruct (fit rt {| pre := build_preprocessor rt X;
                      clf := LogisticRegression 200; learned := None;
                      _decision_threshold := None |} X_tr y_tr) as [lr|e];
    cbn; [|reflexivity].
  destruct (predict rt lr X_te) as [p_lr|e]; cbn; [|reflexivity].
  destruct (f1_score rt y_te p_lr) as [f1_lr|e]; cbn; [|reflexivity].
  destruct (fit rt _ X_tr y_tr) as [xgb|e]; cbn; [|reflexivity].
  destruct (predict rt xgb X_te) as [p_xgb|e]; cbn; [|reflexivity].
  destruct (f1_score rt y_te p_xgb) as [f1_xgb|e]; cbn; reflexivity.
Qed.

Lemma Train_main_unfold (args : Train.Args) (w : World) :
  Train.main rt args w =
    match Train.main_fit_and_score rt w args with
    | Ok (logreg, f1_lr, xgb, f1_xgb) =>
        (_ ← makedirs (Train.out args);
         _ ← write_file (path_join (Train.out args) "model.joblib")
               (joblib_dumps rt (if float_ge f1_xgb f1_lr then xgb else logreg));
         _ ← write_file (path_join (Train.out args) "metrics.txt")
               (metrics_text rt f1_lr f1_xgb);
         print ("Saved best model to" ++ " "
                ++ path_join (Train.out args) "model.joblib")) w
    | Raise e => (Raise e, w)
    end.
Proof.
  unfold Train.main, reading, mbind at 1, IO_bind at 1.
  destruct (Train.main_fit_and_score rt w args) as [[[[lr f1_lr] xgb] f1_xgb]|e];
    reflexivity.
Qed.

(** X19.  In local mode, with a data path that is a file, the configured
    training script does what the plain one does when given the two
    paths of the configuration on its command line: the same outcome,
    the same files with the same content.  (Only the printed line
    differs.) *)
Theorem main_agrees_with_plain_script (args : Args) (w : World) (cfg : value)
    (data_path out_dir : string) :
  load_config rt w (config args) = Ok cfg ->
  resolve_paths w cfg = Ok (JStr data_path, JStr out_dir) ->
  isdir w data_path = false ->
  (main rt args w).1
    = (Train.main rt {| Train.data := data_path; Train.out := out_dir |} w).1 /\
  fs (main rt args w).2
    = fs (Train.main rt {| Train.data := data_path; Train.out := out_dir |} w).2 /\
  environ (main rt args w).2
    = environ (Train.main rt {| Train.data := data_path; Train.out := out_dir |} w).2.
Proof.
  intros Hc Hr Hd.
  destruct (load_config_Ok_inv rt w (config args) cfg Hc) as (d & -> & Hrec).
  assert (exists mode, getitem (JObj d) "mode" = Ok mode) as [mode Hmode].
  { destruct Hrec as [H|H]; cbn; rewrite H; eauto. }
  rewrite main_unfold, (main_fit_and_score_plain args w _ _ _ Hc Hr Hd).
  rewrite Train_main_unfold.
  destruct (Train.main_fit_and_score rt w _) as [[[[lr f1_lr] xgb] f1_xgb]|e];
    cbn [fmap result_fmap]; [|repeat split].
  unfold main_pick_and_save, mbind, IO_bind, reading. cbn [as_path out_dir_of
    f1_xgb_of f1_lr_of xgb_of lr_of cfg_of Train.out].
  destruct (makedirs out_dir w) as [[[]|e] w1]; [|repeat split].
  destruct (write_file (path_join out_dir "model.joblib") _ w1) as [[[]|e] w2];
    [|repeat split].
  destruct (write_file (path_join out_dir "metrics.txt") _ w2) as [[[]|e] w3];
    [|repeat split].
  rewrite Hmode. repeat split.
Qed.

End TrainingPipelineMore.

Lemma load_csv_separates_label_witness :
  exists (path text : string) (df : DataFrame),
    load_csv_path Sample.runtime Sample.local_world "data/projects.csv" = Ok path /\
    read_file Sample.local_world path = Ok text /\
    read_csv_text Sample.runtime text = Ok df /\
    df !! "is_late" = Some [JInt 1; JInt 0] /\
    delete "is_late" Sample.frame !! "is_late" = None /\
    forall name, name <> "is_late" ->
                 delete "is_late" Sample.frame !! name = df !! name.
Proof.
  apply (load_csv_separates_label Sample.runtime Sample.local_world
           "data/projects.csv").
  vm_compute. reflexivity.
Defined.

Lemma load_csv_path_order_independent_witness :
  load_csv_path Sample.runtime Sample.platform_world "/opt/ml/input/data/train"
  = load_csv_path SampleRequests.other_glob_runtime Sample.platform_world
      "/opt/ml/input/data/train".
Proof.
  apply load_csv_path_order_independent.
  cbn. apply Permutation_swap.
Defined.


Lemma main_report_failure_keeps_artifact_witness :
  (main Sample.runtime {| config := None |}
     SampleRequests.blocked_report_world).1 = Raise IsADirectoryError /\
  fs (main Sample.runtime {| config := None |}
        SampleRequests.blocked_report_world).2
    !! "model_artifacts/model.joblib" = Some (File "xgboost pipeline").
Proof.
  destruct (main_report_failure_keeps_artifact Sample.runtime {| config := None |}
              SampleRequests.blocked_report_world Sample.local_scored
              "model_artifacts") as (H1 & H2 & _).
  - vm_compute. reflexivity.
  - reflexivity.
  - discriminate.
  - left. reflexivity.
  - vm_compute. discriminate.
  - reflexivity.
  - split; [exact H1 | exact H2].
Defined.

Lemma main_out_dir_is_file_witness :
  main Sample.runtime {| config := None |} SampleRequests.blocked_out_dir_world
  = (Raise FileExistsError, SampleRequests.blocked_out_dir_world).
Proof.
  apply (main_out_dir_is_file Sample.runtime {| config := None |}
           SampleRequests.blocked_out_dir_world Sample.local_scored
           "model_artifacts" "not a directory").
  - vm_compute. reflexivity.
  - reflexivity.
  - discriminate.
  - reflexivity.
Defined.

Lemma main_agrees_with_plain_script_witness :
  fs (main Sample.runtime {| config := None |} Sample.local_world).2
  = fs (Train.main Sample.runtime
          {| Train.data := "data/projects.csv"; Train.out := "model_artifacts" |}
          Sample.local_world).2.
Proof.
  destruct (main_agrees_with_plain_script Sample.runtime {| config := None |}
              Sample.local_world (JObj Sample.local_doc)
              "data/projects.csv" "model_artifacts") as (_ & H & _).
  - vm_compute. reflexivity.
  - reflexivity.
  - reflexivity.
  - exact H.
Defined.

(** ** What the resolver reads *)

Section ResolverReads.

Context (rt : Runtime).


(** X21.  The [MODE] override never changes the threshold: on the
    document that [load_config] returns, [threshold] gives what it gives
    on the document of the file. *)
Theorem threshold_ignores_MODE (w : World) (config_path : option string)
    (text : string) (d : gmap string value) (cfg : value) :
  read_file w (config_file rt w config_path) = Ok text ->
  json_loads rt text = Ok (JObj d) ->
  load_config rt w config_path = Ok cfg ->
  threshold rt cfg = threshold rt (JObj d).
Proof.
  intros Hr Hj. rewrite (load_config_unfold rt w config_path text d Hr Hj).
  destruct (eq_str _ "local" || eq_str _ "sagemaker"); [|discriminate].
  intros H. inversion H. unfold threshold. cbn.
  now rewrite (with_MODE_other_key rt w d "inference") by discriminate.
Qed.

End ResolverReads.


Lemma threshold_ignores_MODE_witness :
  threshold Sample.runtime (JObj Sample.sagemaker_doc)
  = threshold Sample.runtime (JObj Sample.local_doc).
Proof.
  apply (threshold_ignores_MODE Sample.runtime Sample.platform_world None
           "local.json"); reflexivity.
Defined.
